(** * Kismatic cluster API: validation, store records and responses

  A shallow embedding of [pkg/server/http/handler/clusters.go] and of the
  in-memory store its handler tests use.  Go packages are modules
  ([install], [store], [util], [fmt], [http], [handler]); a Go struct [T] is
  the record [T.t] of a module [T], so that the field [x.F] of the source
  reads [x.(T.F)] here.

  Conventions.
  - Go's [int] is modelled by [Z]: the handlers compare counts with
  constants and with each other and never do arithmetic on them.
  - A nilable pointer or map is an [option]; [None] is [nil].
  - A Go function returning [(T, error)] returns a [result T]; one that
  returns only [error] returns an [option error] ([None] is [nil]).
  - The store behind the API is threaded explicitly: a handler takes the
  store's state and returns the state it leaves, with the HTTP response.
  - Writes to the logger are not modelled. *)

From Stdlib Require Import ZArith List Lia.
From stdpp Require Import base option strings gmap.
Import ListNotations.

Local Open Scope Z_scope.
Local Open Scope string_scope.

(** ** Go's error values *)

(** [err == ErrClusterNotFound] compares identities: the sentinel made once by
  [errors.New] is a constructor of its own, and every value made by
  [fmt.Errorf] (or handed over by a store backend) is an [Errorf]. *)
Inductive error : Type :=
| ErrClusterNotFound
| Errorf (msg : string).

(** The method [Error()]. *)
Definition Error (e : error) : string :=
  match e with
  | ErrClusterNotFound => "cluster details not found in the store"
  | Errorf msg => msg
  end.

Inductive result (T : Type) : Type :=
| Ok (v : T)
| Err (e : error).
Arguments Ok {T} v.
Arguments Err {T} e.

(** ** Package fmt: the verbs the handler uses *)
Module fmt.
(** [%v] of a [[]string]: the elements, separated by blanks, in brackets. *)
Definition v_strings (xs : list string) : string :=
  "[" +:+ String.concat " " xs +:+ "]".
End fmt.

(** ** Package util *)
Module util.
(** Modelled from the spec: [util.Contains] lives in [pkg/util], which is
  not among the sources; the validation rule it serves is "in the allowed
  set", that is membership of the string in the slice. *)
Fixpoint Contains (x : string) (xs : list string) : bool :=
  match xs with
  | [] => false
  | s :: xs' => if String.eqb s x then true else Contains x xs'
  end.
End util.

(** ** Package install: the plan types the handler touches

  The declarations of [pkg/install] are not among the sources.  The records
  below hold the fields that the handler and its tests read or write; the
  struct [install.AWSProvisionerOptions], of which no field is ever named,
  is the type parameter [O]. *)
Module install.

Module Cluster.
Record t := mk { Name : string }.
End Cluster.
Definition Cluster := Cluster.t.

Module NodeGroup.
Record t := mk { ExpectedCount : Z }.
End NodeGroup.
Definition NodeGroup := NodeGroup.t.

Module MasterNodeGroup.
Record t := mk { ExpectedCount : Z; LoadBalancedFQDN : string }.
End MasterNodeGroup.
Definition MasterNodeGroup := MasterNodeGroup.t.

Module OptionalNodeGroup.
Record t := mk { ExpectedCount : Z }.
End OptionalNodeGroup.
Definition OptionalNodeGroup := OptionalNodeGroup.t.

Module Provisioner.
Record t (O : Type) := mk { Provider : string; AWSOptions : option O }.
Arguments mk {O}.
Arguments Provider {O}.
Arguments AWSOptions {O}.
End Provisioner.
Definition Provisioner := Provisioner.t.

Module Plan.
Record t (O : Type) := mk {
  Cluster : Cluster;
  Etcd : NodeGroup;
  Master : MasterNodeGroup;
  Worker : NodeGroup;
  Ingress : OptionalNodeGroup;
  Provisioner : Provisioner O
}.
Arguments mk {O}.
Arguments Cluster {O}.
Arguments Etcd {O}.
Arguments Master {O}.
Arguments Worker {O}.
Arguments Ingress {O}.
Arguments Provisioner {O}.
(** The assignments [p.Cluster... = ...] and [p.Provisioner = ...]. *)
Definition with_Cluster {O} (p : t O) (c : install.Cluster) : t O :=
  {| Cluster := c; Etcd := Etcd p; Master := Master p; Worker := Worker p;
     Ingress := Ingress p; Provisioner := Provisioner p |}.
Definition with_Provisioner {O} (p : t O) (pr : install.Provisioner O) : t O :=
  {| Cluster := Cluster p; Etcd := Etcd p; Master := Master p; Worker := Worker p;
     Ingress := Ingress p; Provisioner := pr |}.
End Plan.
Definition Plan := Plan.t.

Module PlanTemplateOptions.
Record t := mk {
  EtcdNodes : Z;
  MasterNodes : Z;
  WorkerNodes : Z;
  IngressNodes : Z
}.
End PlanTemplateOptions.
Definition PlanTemplateOptions := PlanTemplateOptions.t.

(** The template writer and reader the handler calls:
  [planner := &install.BytesPlanner{}], then
  [install.WritePlanTemplate(planTemplate, planner)], then
  [planner.Read()].  Their bodies are not among the sources, so the
  handler is stated over any implementation of this interface. *)
Class Planner (O : Type) := {
  BytesPlanner : Type;
  BytesPlanner_zero : BytesPlanner;
  WritePlanTemplate :
    PlanTemplateOptions -> BytesPlanner -> BytesPlanner * option error;
  Read : BytesPlanner -> result (Plan O)
}.

(** Modelled from the spec: what the absent writer and reader owe the handler
  (Plan Builder, (a): "expand a parameterized template keyed by requested
  group sizes"): a plan read back from a template written for given group
  sizes expects these sizes. *)
Class PlannerExpands (O : Type) `{Planner O} : Prop :=
  Read_WritePlanTemplate :
    forall (t : PlanTemplateOptions) (planner : BytesPlanner) (p : Plan O),
      WritePlanTemplate t BytesPlanner_zero = (planner, None) ->
      Read planner = Ok p ->
      p.(Plan.Etcd).(NodeGroup.ExpectedCount) = t.(PlanTemplateOptions.EtcdNodes)
      /\ p.(Plan.Master).(MasterNodeGroup.ExpectedCount) = t.(PlanTemplateOptions.MasterNodes)
      /\ p.(Plan.Worker).(NodeGroup.ExpectedCount) = t.(PlanTemplateOptions.WorkerNodes)
      /\ p.(Plan.Ingress).(OptionalNodeGroup.ExpectedCount) = t.(PlanTemplateOptions.IngressNodes).

(** Modelled from the spec: an implementation of the absent writer and reader,
  which the examples run the handler on.  The bytes of a planner are stood
  for by the template options written into it ([None]: nothing written yet);
  reading expands them into a plan of the requested group sizes whose other
  fields hold their zero values. *)
Definition templatePlanner (O : Type) : Planner O :=
  {| BytesPlanner := option PlanTemplateOptions;
     BytesPlanner_zero := None;
     WritePlanTemplate := fun t _ => (Some t, None);
     Read := fun planner =>
       match planner with
       | None => Err (Errorf "EOF")
       | Some t =>
           Ok {| Plan.Cluster := {| Cluster.Name := "" |};
                 Plan.Etcd :=
                   {| NodeGroup.ExpectedCount := t.(PlanTemplateOptions.EtcdNodes) |};
                 Plan.Master :=
                   {| MasterNodeGroup.ExpectedCount := t.(PlanTemplateOptions.MasterNodes);
                      MasterNodeGroup.LoadBalancedFQDN := "" |};
                 Plan.Worker :=
                   {| NodeGroup.ExpectedCount := t.(PlanTemplateOptions.WorkerNodes) |};
                 Plan.Ingress :=
                   {| OptionalNodeGroup.ExpectedCount :=
                        t.(PlanTemplateOptions.IngressNodes) |};
                 Plan.Provisioner :=
                   {| Provisioner.Provider := ""; Provisioner.AWSOptions := None |} |}
       end |}.

End install.

(** ** Package store: the records kept and the store interface *)
Module store.

Module AWSCredentials.
Record t := mk { AccessKeyId : string; SecretAccessKey : string }.
End AWSCredentials.
Definition AWSCredentials := AWSCredentials.t.

Module ProvisionerCredentials.
Record t := mk { AWS : AWSCredentials }.
(** The zero value, which a record built without credentials holds. *)
Definition zero : t :=
  {| AWS := {| AWSCredentials.AccessKeyId := ""; AWSCredentials.SecretAccessKey := "" |} |}.
End ProvisionerCredentials.
Definition ProvisionerCredentials := ProvisionerCredentials.t.

Module Cluster.
Record t (O : Type) := mk {
  DesiredState : string;
  CurrentState : string;
  Plan : install.Plan O;
  CanContinue : bool;
  ProvisionerCredentials : ProvisionerCredentials
}.
Arguments mk {O}.
Arguments DesiredState {O}.
Arguments CurrentState {O}.
Arguments Plan {O}.
Arguments CanContinue {O}.
Arguments ProvisionerCredentials {O}.
(** The assignments to single fields of a record. *)
Definition with_DesiredState {O} (c : t O) (x : string) : t O :=
  {| DesiredState := x; CurrentState := CurrentState c; Plan := Plan c;
     CanContinue := CanContinue c;
     ProvisionerCredentials := ProvisionerCredentials c |}.
Definition with_CanContinue {O} (c : t O) (x : bool) : t O :=
  {| DesiredState := DesiredState c; CurrentState := CurrentState c; Plan := Plan c;
     CanContinue := x;
     ProvisionerCredentials := ProvisionerCredentials c |}.
Definition with_ProvisionerCredentials {O} (c : t O)
  (x : store.ProvisionerCredentials) : t O :=
  {| DesiredState := DesiredState c; CurrentState := CurrentState c; Plan := Plan c;
     CanContinue := CanContinue c;
     ProvisionerCredentials := x |}.
End Cluster.
Definition Cluster := Cluster.t.

(** The interface [store.ClusterStore], over a backend whose state has type
  [S].  [Get] and [GetAll] read; [Put] and [Delete] return the state they
  leave and the error they report.  ([Watch] hands out a channel and is
  used by no handler of this file.) *)
Class ClusterStore (O S : Type) := {
  Get : S -> string -> result (option (Cluster O));
  Put : S -> string -> Cluster O -> S * option error;
  GetAll : S -> result (option (gmap string (Cluster O)));
  Delete : S -> string -> S * option error
}.

(** Modelled from the spec: the backends of the store are not among the
  sources.  Record Store: "Put(name, record): unconditional overwrite", so a
  [Put] that reports no error is read back by [Get]; and a [Put] that reports
  an error has written nothing. *)
Class ClusterStoreLaws (O S : Type) `{ClusterStore O S} : Prop := {
  Get_Put : forall (cs cs' : S) (key : string) (c : Cluster O),
    Put cs key c = (cs', None) -> Get cs' key = Ok (Some c);
  Put_failed : forall (cs cs' : S) (key : string) (c : Cluster O) (err : error),
    Put cs key c = (cs', Some err) -> cs' = cs
}.

End store.

(** ** Package net/http: status codes and the response a handler writes *)
Module http.
Definition StatusOK : Z := 200.
Definition StatusAccepted : Z := 202.
Definition StatusBadRequest : Z := 400.
Definition StatusNotFound : Z := 404.
Definition StatusConflict : Z := 409.
Definition StatusInternalServerError : Z := 500.
End http.

(** ** Packages os, path, io/ioutil and archiver: what the handlers that
  serve files ask of the system

  The file system has a state of type [F].  [Stat] and [Join] read;
  [TempFile] and [TarGz_Make] return the state they leave with their result;
  [Remove] returns the state it leaves (the handler drops its error). *)
Module os.

(** What [os.Stat(name)] returns: the file information, of which the handlers
  read [IsDir()] only, with a nil error; or a nil information with an error
  that [os.IsNotExist] recognises, or with another error. *)
Inductive StatResult : Type :=
| FileInfo (IsDir : bool)
| ErrNotExist
| ErrOther.

Class FileSystem (F : Type) := {
  (* path.Join(elem...) *)
  Join : list string -> string;
  (* os.Stat(name) *)
  Stat : F -> string -> StatResult;
  (* ioutil.TempFile(dir, prefix): the name of the file made, tmpf.Name() *)
  TempFile : F -> string -> string -> F * result string;
  (* archiver.TarGz.Make(name, sources) *)
  TarGz_Make : F -> string -> list string -> F * option error;
  (* os.Remove(name) *)
  Remove : F -> string -> F
}.

End os.

(** ** Package handler *)
Module handler.

(** *** The request and response types (clusters.go, lines 113-152) *)

Module AWSProvisionerOptions.
(** The embedded [install.AWSProvisionerOptions] is the first field. *)
Record t (O : Type) := mk {
  AWSProvisionerOptions : O;
  AccessKeyID : string;
  SecretAccessKey : string
}.
Arguments mk {O}.
Arguments AWSProvisionerOptions {O}.
Arguments AccessKeyID {O}.
Arguments SecretAccessKey {O}.
End AWSProvisionerOptions.
Definition AWSProvisionerOptions := AWSProvisionerOptions.t.

Module Provisioner.
Record t (O : Type) := mk {
  Provider : string;
  AWSOptions : option (AWSProvisionerOptions O)
}.
Arguments mk {O}.
Arguments Provider {O}.
Arguments AWSOptions {O}.
End Provisioner.
Definition Provisioner := Provisioner.t.

Module ClusterRequest.
Record t (O : Type) := mk {
  Name : string;
  DesiredState : string;
  ClusterIP : string;
  EtcdCount : Z;
  MasterCount : Z;
  WorkerCount : Z;
  IngressCount : Z;
  Provisioner : Provisioner O
}.
Arguments mk {O}.
Arguments Name {O}.
Arguments DesiredState {O}.
Arguments ClusterIP {O}.
Arguments EtcdCount {O}.
Arguments MasterCount {O}.
Arguments WorkerCount {O}.
Arguments IngressCount {O}.
Arguments Provisioner {O}.
End ClusterRequest.
Definition ClusterRequest := ClusterRequest.t.

Module ClusterResponse.
Record t (O : Type) := mk {
  Name : string;
  DesiredState : string;
  CurrentState : string;
  ClusterIP : string;
  EtcdCount : Z;
  MasterCount : Z;
  WorkerCount : Z;
  IngressCount : Z;
  Provisioner : Provisioner O
}.
Arguments mk {O}.
Arguments Name {O}.
Arguments DesiredState {O}.
Arguments CurrentState {O}.
Arguments ClusterIP {O}.
Arguments EtcdCount {O}.
Arguments MasterCount {O}.
Arguments WorkerCount {O}.
Arguments IngressCount {O}.
Arguments Provisioner {O}.
End ClusterResponse.
Definition ClusterResponse := ClusterResponse.t.

Definition validStates : list string := ["installed"].
Definition validProvisionerProviders : list string := ["aws"].

(** *** The validator (clusters.go, lines 25-54) *)

(** [type validatable interface { validate() (bool, []error) }] *)
Class validatable (A : Type) := validate : A -> bool * list error.

Module validator.
Record t := mk { errs : list error }.

Definition addError (v : t) (err : list error) : t :=
  {| errs := errs v ++ err |}.

Definition validate {A} `{validatable A} (v : t) (obj : A) : t :=
  let '(ok, err) := handler.validate obj in
  if negb ok then addError v err else v.

Definition valid (v : t) : bool * list error :=
  if (0 <? Z.of_nat (length (errs v)))%Z then (false, errs v) else (true, []).
End validator.
Definition validator := validator.t.

Definition newValidator : validator := {| validator.errs := [] |}.

(** The body a handler writes: nothing, a text, the JSON array of the
  validation messages (which [Create] hands to [http.Error] as a string), or
  the JSON of one or of several responses. *)
Inductive Body (O : Type) : Type :=
  | NoBody
  | Text (s : string)
  | Strings (msgs : list string)
  | OneCluster (r : ClusterResponse O)
  | Clusters (rs : list (ClusterResponse O)).
Arguments NoBody {O}.
Arguments Text {O} s.
Arguments Strings {O} msgs.
Arguments OneCluster {O} r.
Arguments Clusters {O} rs.

Module Response.
Record t (O : Type) := mk { Code : Z; Body : Body O }.
Arguments mk {O}.
Arguments Code {O}.
Arguments Body {O}.
End Response.
Definition Response := Response.t.

(** The line feed that ends the bodies written. *)
Definition newline : string := String (Ascii.ascii_of_nat 10) "".

(** [w.WriteHeader(code)] with nothing written after it. *)
Definition WriteHeader {O} (code : Z) : Response O :=
  {| Response.Code := code; Response.Body := NoBody |}.

(** [http.Error(w, msg, code)]: the status, and the message printed with
  [Fprintln] as the body. *)
Definition http_Error {O} (msg : string) (code : Z) : Response O :=
  {| Response.Code := code; Response.Body := Text (msg +:+ newline) |}.

Section Handlers.
Context {O : Type}.

(** *** Validation of a request (clusters.go, lines 56-103) *)

Definition Provisioner_validate (p : Provisioner O) : bool * list error :=
  let v := newValidator in
  let v :=
    if String.eqb p.(Provisioner.Provider) "" then
      validator.addError v [Errorf "provisioner.provider cannot be empty"]
    else
      let v :=
        if negb (util.Contains p.(Provisioner.Provider) validProvisionerProviders) then
          validator.addError v
            [Errorf (p.(Provisioner.Provider)
                     +:+ " is not a valid provisioner.provider, options are: "
                     +:+ fmt.v_strings validProvisionerProviders)]
        else v in
      if String.eqb p.(Provisioner.Provider) "aws" then
        let v :=
          match p.(Provisioner.AWSOptions) with
          | None =>
              validator.addError v
                [Errorf "provisioner.options.accessKeyID cannot be empty"]
          | Some o =>
              if String.eqb o.(AWSProvisionerOptions.AccessKeyID) "" then
                validator.addError v
                  [Errorf "provisioner.options.accessKeyID cannot be empty"]
              else v
          end in
        match p.(Provisioner.AWSOptions) with
        | None =>
            validator.addError v
              [Errorf "provisioner.options.secretAccessKey cannot be empty"]
        | Some o =>
            if String.eqb o.(AWSProvisionerOptions.SecretAccessKey) "" then
              validator.addError v
                [Errorf "provisioner.options.secretAccessKey cannot be empty"]
            else v
        end
      else v in
  validator.valid v.

#[global] Instance Provisioner_validatable : validatable (Provisioner O) :=
  Provisioner_validate.

Definition ClusterRequest_validate (r : ClusterRequest O) : bool * list error :=
  let v := newValidator in
  let v :=
    if String.eqb r.(ClusterRequest.Name) "" then
      validator.addError v [Errorf "name cannot be empty"]
    else v in
  let v :=
    if String.eqb r.(ClusterRequest.DesiredState) "" then
      validator.addError v [Errorf "desiredState cannot be empty"]
    else if negb (util.Contains r.(ClusterRequest.DesiredState) validStates) then
      validator.addError v
        [Errorf (r.(ClusterRequest.DesiredState)
                 +:+ " is not a valid desiredState, options are: "
                 +:+ fmt.v_strings validStates)]
    else v in
  let v :=
    if (r.(ClusterRequest.EtcdCount) <=? 0)%Z then
      validator.addError v [Errorf "cluster.etcdCount must be greater than 0"]
    else v in
  let v :=
    if (r.(ClusterRequest.MasterCount) <=? 0)%Z then
      validator.addError v [Errorf "cluster.masterCount must be greater than 0"]
    else v in
  let v :=
    if (r.(ClusterRequest.WorkerCount) <=? 0)%Z then
      validator.addError v [Errorf "cluster.workerCount must be greater than 0"]
    else v in
  let v :=
    if (r.(ClusterRequest.IngressCount) <? 0)%Z then
      validator.addError v
        [Errorf "cluster.ingressCount must be greater than or equal to 0"]
    else v in
  let v := validator.validate v r.(ClusterRequest.Provisioner) in
  validator.valid v.

#[global] Instance ClusterRequest_validatable : validatable (ClusterRequest O) :=
  ClusterRequest_validate.

Definition formatErrs (errs : list error) : list string :=
  map Error errs.

(** *** Helpers over the store (clusters.go, lines 367-402) *)

Context {S : Type} {Store : store.ClusterStore O S} {Templates : install.Planner O}.

Definition putToStore (name : string) (toStore : store.Cluster O) (cs : S)
  : S * option error :=
  match store.Put cs name toStore with
  | (cs', Some err) =>
      (cs', Some (Errorf ("could not put to the store: " +:+ Error err)))
  | (cs', None) => (cs', None)
  end.

Definition existsInStore (name : string) (cs : S) : result bool :=
  match store.Get cs name with
  | Err err => Err (Errorf ("could not get from the store: " +:+ Error err))
  | Ok sc => Ok (match sc with Some _ => true | None => false end)
  end.

Definition getFromStore (name : string) (cs : S) : result (store.Cluster O) :=
  match store.Get cs name with
  | Err err => Err (Errorf ("could not get from the store: " +:+ Error err))
  | Ok None => Err ErrClusterNotFound
  | Ok (Some sc) => Ok sc
  end.

(** The map returned is nilable in Go; [make(map[string]store.Cluster, 0)] is
  the empty map, which is not [nil]. *)
Definition getAllFromStore (cs : S)
  : result (option (gmap string (store.Cluster O))) :=
  match store.GetAll cs with
  | Err err => Err (Errorf ("could not get from the store: " +:+ Error err))
  | Ok None => Ok (Some ∅)
  | Ok (Some msc) => Ok (Some msc)
  end.

(** *** Building the stored record and the response (lines 404-471) *)

Definition buildStoreCluster (req : ClusterRequest O) : result (store.Cluster O) :=
  let planTemplate :=
    {| install.PlanTemplateOptions.EtcdNodes := req.(ClusterRequest.EtcdCount);
       install.PlanTemplateOptions.MasterNodes := req.(ClusterRequest.MasterCount);
       install.PlanTemplateOptions.WorkerNodes := req.(ClusterRequest.WorkerCount);
       install.PlanTemplateOptions.IngressNodes := req.(ClusterRequest.IngressCount) |} in
  let planner := install.BytesPlanner_zero in
  match install.WritePlanTemplate planTemplate planner with
  | (_, Some err) =>
      Err (Errorf ("could not decode request body: " +:+ Error err))
  | (planner, None) =>
      match install.Read planner with
      | Err err => Err (Errorf ("could not read plan: " +:+ Error err))
      | Ok p =>
          (* p.Cluster.Name = req.Name *)
          let p := install.Plan.with_Cluster p
                     {| install.Cluster.Name := req.(ClusterRequest.Name) |} in
          (* p.Provisioner = install.Provisioner{Provider: ...} *)
          let p := install.Plan.with_Provisioner p
                     {| install.Provisioner.Provider :=
                          req.(ClusterRequest.Provisioner).(Provisioner.Provider);
                        install.Provisioner.AWSOptions := None |} in
          let p :=
            match req.(ClusterRequest.Provisioner).(Provisioner.AWSOptions) with
            | Some o =>
                install.Plan.with_Provisioner p
                  {| install.Provisioner.Provider :=
                       p.(install.Plan.Provisioner).(install.Provisioner.Provider);
                     install.Provisioner.AWSOptions :=
                       Some o.(AWSProvisionerOptions.AWSProvisionerOptions) |}
            | None => p
            end in
          let sc :=
            {| store.Cluster.DesiredState := req.(ClusterRequest.DesiredState);
               store.Cluster.CurrentState := "planned";
               store.Cluster.Plan := p;
               store.Cluster.CanContinue := true;
               store.Cluster.ProvisionerCredentials := store.ProvisionerCredentials.zero |} in
          let sc :=
            if String.eqb p.(install.Plan.Provisioner).(install.Provisioner.Provider) "aws" then
              match req.(ClusterRequest.Provisioner).(Provisioner.AWSOptions) with
              | Some o =>
                  let creds :=
                    {| store.ProvisionerCredentials.AWS :=
                         {| store.AWSCredentials.AccessKeyId :=
                              o.(AWSProvisionerOptions.AccessKeyID);
                            store.AWSCredentials.SecretAccessKey :=
                              o.(AWSProvisionerOptions.SecretAccessKey) |} |} in
                  store.Cluster.with_ProvisionerCredentials sc creds
              | None => sc
              end
            else sc in
          Ok sc
      end
  end.

Definition buildResponse (name : string) (sc : store.Cluster O) : ClusterResponse O :=
  let provisioner :=
    {| Provisioner.Provider :=
         sc.(store.Cluster.Plan).(install.Plan.Provisioner).(install.Provisioner.Provider);
       Provisioner.AWSOptions := None |} in
  let provisioner :=
    if String.eqb
         sc.(store.Cluster.Plan).(install.Plan.Provisioner).(install.Provisioner.Provider)
         "aws" then
      match sc.(store.Cluster.Plan).(install.Plan.Provisioner).(install.Provisioner.AWSOptions) with
      | Some o =>
          {| Provisioner.Provider := provisioner.(Provisioner.Provider);
             Provisioner.AWSOptions :=
               Some {| AWSProvisionerOptions.AWSProvisionerOptions := o;
                       AWSProvisionerOptions.AccessKeyID := "";
                       AWSProvisionerOptions.SecretAccessKey := "" |} |}
      | None => provisioner
      end
    else provisioner in
  {| ClusterResponse.Name := name;
     ClusterResponse.DesiredState := sc.(store.Cluster.DesiredState);
     ClusterResponse.CurrentState := sc.(store.Cluster.CurrentState);
     ClusterResponse.ClusterIP :=
       sc.(store.Cluster.Plan).(install.Plan.Master).(install.MasterNodeGroup.LoadBalancedFQDN);
     ClusterResponse.EtcdCount :=
       sc.(store.Cluster.Plan).(install.Plan.Etcd).(install.NodeGroup.ExpectedCount);
     ClusterResponse.MasterCount :=
       sc.(store.Cluster.Plan).(install.Plan.Master).(install.MasterNodeGroup.ExpectedCount);
     ClusterResponse.WorkerCount :=
       sc.(store.Cluster.Plan).(install.Plan.Worker).(install.NodeGroup.ExpectedCount);
     ClusterResponse.IngressCount :=
       sc.(store.Cluster.Plan).(install.Plan.Ingress).(install.OptionalNodeGroup.ExpectedCount);
     ClusterResponse.Provisioner := provisioner |}.

(** *** The handlers (clusters.go, lines 160-277)

  A handler takes the state of [api.Store] and what the router and the JSON
  decoder hand it, and returns the state it leaves and the response written.
  [json.MarshalIndent] of a [[]string] and [Encode] of a response value
  cannot fail, so the branches on their errors are left out. *)

Definition Create (cs : S) (body : result (ClusterRequest O)) : S * Response O :=
  match body with
  | Err err =>
      (cs, http_Error ("could not decode body: " +:+ Error err +:+ newline)
             http.StatusBadRequest)
  | Ok req =>
      (* validate request *)
      let '(valid, errs) := validate req in
      if negb valid then
        (cs, {| Response.Code := http.StatusBadRequest;
                Response.Body := Strings (formatErrs errs) |})
      else
        (* confirm the name is unique *)
        match existsInStore req.(ClusterRequest.Name) cs with
        | Err err => (cs, WriteHeader http.StatusInternalServerError)
        | Ok true => (cs, WriteHeader http.StatusConflict)
        | Ok false =>
            match buildStoreCluster req with
            | Err err => (cs, WriteHeader http.StatusInternalServerError)
            | Ok sc =>
                match putToStore req.(ClusterRequest.Name) sc cs with
                | (cs', Some err) => (cs', WriteHeader http.StatusInternalServerError)
                | (cs', None) =>
                    (cs', {| Response.Code := http.StatusAccepted;
                             Response.Body := Text ("ok" +:+ newline) |})
                end
            end
        end
  end.

Definition Get (cs : S) (id : string) : S * Response O :=
  match getFromStore id cs with
  | Err ErrClusterNotFound => (cs, WriteHeader http.StatusNotFound)
  | Err _ => (cs, WriteHeader http.StatusInternalServerError)
  | Ok fromStore =>
      let clusterResp := buildResponse id fromStore in
      (cs, {| Response.Code := http.StatusOK;
              Response.Body := OneCluster clusterResp |})
  end.

(** [range] over a map visits its entries in an order Go leaves open; here it
  is the order of [map_to_list].  A [nil] map has no entries. *)
Definition GetAll (cs : S) : S * Response O :=
  match getAllFromStore cs with
  | Err err => (cs, WriteHeader http.StatusInternalServerError)
  | Ok fromStore =>
      let clustersResp :=
        map (fun '(key, sc) => buildResponse key sc)
            (map_to_list (default ∅ fromStore)) in
      (cs, {| Response.Code := http.StatusOK;
              Response.Body := Clusters clustersResp |})
  end.

Definition Delete (cs : S) (id : string) : S * Response O :=
  match getFromStore id cs with
  | Err ErrClusterNotFound => (cs, WriteHeader http.StatusNotFound)
  | Err _ => (cs, WriteHeader http.StatusInternalServerError)
  | Ok fromStore =>
      (* update the state and put to the store *)
      let fromStore := store.Cluster.with_DesiredState fromStore "destroyed" in
      let fromStore := store.Cluster.with_CanContinue fromStore true in
      match putToStore id fromStore cs with
      | (cs', Some err) => (cs', WriteHeader http.StatusInternalServerError)
      | (cs', None) =>
          (cs', {| Response.Code := http.StatusAccepted;
                   Response.Body := Text ("ok" +:+ newline) |})
      end
  end.

End Handlers.

(** *** The handlers that serve files (clusters.go, lines 279-365)

  What such a handler does with the response: it writes a status and no
  body, or it calls [http.ServeFile] on a file, after setting the header
  [Content-Disposition] or not, or it panics on a nil value. *)
Inductive Served : Type :=
| Header (code : Z)
| ServeFile (disposition : option string) (name : string)
| Panic.

Section FileHandlers.
Context {O S F : Type} {Store : store.ClusterStore O S} {Files : os.FileSystem F}.

(** In [os.IsNotExist(err) || stat.IsDir()] the information [stat] is nil
  when [err] is an error of another kind, and [stat.IsDir()] panics. *)
Definition GetKubeconfig (AssetsDir : string) (cs : S) (fs : F) (id : string)
  : Served :=
  match existsInStore id cs with
  | Err err => Header http.StatusInternalServerError
  | Ok false => Header http.StatusNotFound
  | Ok true =>
      let f := os.Join [AssetsDir; id; "assets"; "kubeconfig"] in
      match os.Stat fs f with
      | os.ErrNotExist => Header http.StatusInternalServerError
      | os.ErrOther => Panic
      | os.FileInfo true => Header http.StatusInternalServerError
      | os.FileInfo false =>
          (* set so the browser downloads it instead of displaying it *)
          ServeFile (Some "attachment; filename=config") f
      end
  end.

Definition GetLogs (AssetsDir : string) (cs : S) (fs : F) (id : string) : Served :=
  match existsInStore id cs with
  | Err err => Header http.StatusInternalServerError
  | Ok false => Header http.StatusNotFound
  | Ok true =>
      let f := os.Join [AssetsDir; id; "kismatic.log"] in
      match os.Stat fs f with
      | os.ErrNotExist => Header http.StatusInternalServerError
      | os.ErrOther => Panic
      | os.FileInfo true => Header http.StatusInternalServerError
      | os.FileInfo false => ServeFile None f
      end
  end.

(** [defer os.Remove(tmpf.Name())] stands before the test of the error of
  [ioutil.TempFile]: its argument is evaluated there, on a nil [tmpf] when
  the file could not be made, and the removal runs when the handler returns,
  after the file was served. *)
Definition GetAssets (AssetsDir : string) (cs : S) (fs : F) (id : string)
  : F * Served :=
  match existsInStore id cs with
  | Err err => (fs, Header http.StatusInternalServerError)
  | Ok false => (fs, Header http.StatusNotFound)
  | Ok true =>
      let dir := os.Join [AssetsDir; id; "assets"] in
      match os.Stat fs dir with
      | os.ErrNotExist => (fs, Header http.StatusInternalServerError)
      | os.ErrOther => (fs, Panic)
      | os.FileInfo false => (fs, Header http.StatusInternalServerError)
      | os.FileInfo true =>
          (* create a temp dir to store the tar assets *)
          match os.TempFile fs "/tmp" id with
          | (fs, Err err) => (fs, Panic)
          | (fs, Ok tmpf) =>
              (* archive the directory *)
              match os.TarGz_Make fs tmpf [dir] with
              | (fs, Some err) =>
                  (os.Remove fs tmpf, Header http.StatusInternalServerError)
              | (fs, None) =>
                  let attachmentName :=
                    "attachment; filename=" +:+ id +:+ "-assets.tar.gz" in
                  (os.Remove fs tmpf, ServeFile (Some attachmentName) tmpf)
              end
          end
      end
  end.

End FileHandlers.

(** *** The store of the handler tests (mockClustersStore)

  The field [store] is a Go map, [nil] until the first [Put]. *)
Module mockClustersStore.
Record t (O : Type) := mk { store : option (gmap string (store.Cluster O)) }.
Arguments mk {O}.
Arguments store {O}.

Definition Get {O} (cs : t O) (key : string) : result (option (store.Cluster O)) :=
  match store cs with
  | None => Ok None
  | Some m => Ok (m !! key)
  end.

Definition Put {O} (cs : t O) (key : string) (cluster : store.Cluster O)
  : t O * option error :=
  let cs := match store cs with None => {| store := Some ∅ |} | Some _ => cs end in
  ({| store := insert key cluster <$> store cs |}, None).

Definition GetAll {O} (cs : t O) : result (option (gmap string (store.Cluster O))) :=
  Ok (store cs).

Definition Delete {O} (cs : t O) (key : string) : t O * option error :=
  ({| store := delete key <$> store cs |}, None).
End mockClustersStore.
Definition mockClustersStore := mockClustersStore.t.

#[global] Instance mockClustersStore_ClusterStore (O : Type)
  : store.ClusterStore O (mockClustersStore O) :=
  {| store.Get := mockClustersStore.Get;
     store.Put := mockClustersStore.Put;
     store.GetAll := mockClustersStore.GetAll;
     store.Delete := mockClustersStore.Delete |}.

(** *** Validation of a patch *)

(** The struct of the table test [TestUpdateValidationShouldError]. *)
Module clusterPatch.
Record t (O : Type) := mk {
  id : string;
  request : ClusterRequest O;
  inStore : store.Cluster O
}.
Arguments mk {O}.
Arguments id {O}.
Arguments request {O}.
Arguments inStore {O}.
End clusterPatch.
Definition clusterPatch := clusterPatch.t.

(** Modelled from the spec: the method [clusterPatch.validate] is not among
  the sources; only the table test that calls it is.  Validation Engine,
  [validatePatch(id, request, existing)]: "all of the above, plus: id
  (addressed resource) must equal request.Name; request.Name must equal the
  existing record's stored name (renames rejected); request.EtcdCount must
  equal the existing stored etcd count (quorum size immutable)".  The spec
  does not give the wording of the three messages. *)
Definition clusterPatch_validate {O} (p : clusterPatch O) : bool * list error :=
  let v := newValidator in
  let v := validator.validate v p.(clusterPatch.request) in
  let v :=
    if negb (String.eqb p.(clusterPatch.id)
               p.(clusterPatch.request).(ClusterRequest.Name)) then
      validator.addError v [Errorf "name must be the name of the cluster addressed"]
    else v in
  let v :=
    if negb (String.eqb p.(clusterPatch.request).(ClusterRequest.Name)
               p.(clusterPatch.inStore).(store.Cluster.Plan).(install.Plan.Cluster).(install.Cluster.Name)) then
      validator.addError v [Errorf "name cannot be changed"]
    else v in
  let v :=
    if negb (p.(clusterPatch.request).(ClusterRequest.EtcdCount)
             =? p.(clusterPatch.inStore).(store.Cluster.Plan).(install.Plan.Etcd).(install.NodeGroup.ExpectedCount))%Z then
      validator.addError v [Errorf "cluster.etcdCount cannot be changed"]
    else v in
  validator.valid v.

#[global] Instance clusterPatch_validatable (O : Type) : validatable (clusterPatch O) :=
  clusterPatch_validate.

(** *** The rules of create validation, one by one

  The specification's list of what a create request must satisfy, as a table:
  when a rule is violated, and the message that reports it.  The rule on the
  allowed states speaks of a state that is given, and the two rules on
  credentials of the provider they belong to. *)
Module rule.
Record t (O : Type) := mk {
  violated : ClusterRequest O -> bool;
  message : ClusterRequest O -> string
}.
Arguments mk {O}.
Arguments violated {O}.
Arguments message {O}.
End rule.
Definition rule := rule.t.

Definition missing {O} (key : AWSProvisionerOptions O -> string)
  (p : Provisioner O) : bool :=
  match p.(Provisioner.AWSOptions) with
  | None => true
  | Some o => String.eqb (key o) ""
  end.

Definition nameGiven {O} : rule O :=
  {| rule.violated := fun r => String.eqb r.(ClusterRequest.Name) "";
     rule.message := fun _ => "name cannot be empty" |}.

Definition stateGiven {O} : rule O :=
  {| rule.violated := fun r => String.eqb r.(ClusterRequest.DesiredState) "";
     rule.message := fun _ => "desiredState cannot be empty" |}.

Definition stateAllowed {O} : rule O :=
  {| rule.violated := fun r =>
       negb (String.eqb r.(ClusterRequest.DesiredState) "")
       && negb (util.Contains r.(ClusterRequest.DesiredState) validStates);
     rule.message := fun r =>
       r.(ClusterRequest.DesiredState)
       +:+ " is not a valid desiredState, options are: [installed]" |}.

Definition etcdPositive {O} : rule O :=
  {| rule.violated := fun r => negb (0 <? r.(ClusterRequest.EtcdCount))%Z;
     rule.message := fun _ => "cluster.etcdCount must be greater than 0" |}.

Definition masterPositive {O} : rule O :=
  {| rule.violated := fun r => negb (0 <? r.(ClusterRequest.MasterCount))%Z;
     rule.message := fun _ => "cluster.masterCount must be greater than 0" |}.

Definition workerPositive {O} : rule O :=
  {| rule.violated := fun r => negb (0 <? r.(ClusterRequest.WorkerCount))%Z;
     rule.message := fun _ => "cluster.workerCount must be greater than 0" |}.

Definition ingressNotNegative {O} : rule O :=
  {| rule.violated := fun r => negb (0 <=? r.(ClusterRequest.IngressCount))%Z;
     rule.message := fun _ =>
       "cluster.ingressCount must be greater than or equal to 0" |}.

Definition providerGiven {O} : rule O :=
  {| rule.violated := fun r =>
       String.eqb r.(ClusterRequest.Provisioner).(Provisioner.Provider) "";
     rule.message := fun _ => "provisioner.provider cannot be empty" |}.

Definition providerKnown {O} : rule O :=
  {| rule.violated := fun r =>
       negb (String.eqb r.(ClusterRequest.Provisioner).(Provisioner.Provider) "")
       && negb (util.Contains r.(ClusterRequest.Provisioner).(Provisioner.Provider)
                  validProvisionerProviders);
     rule.message := fun r =>
       r.(ClusterRequest.Provisioner).(Provisioner.Provider)
       +:+ " is not a valid provisioner.provider, options are: [aws]" |}.

Definition accessKeyGiven {O} : rule O :=
  {| rule.violated := fun r =>
       String.eqb r.(ClusterRequest.Provisioner).(Provisioner.Provider) "aws"
       && missing AWSProvisionerOptions.AccessKeyID r.(ClusterRequest.Provisioner);
     rule.message := fun _ => "provisioner.options.accessKeyID cannot be empty" |}.

Definition secretKeyGiven {O} : rule O :=
  {| rule.violated := fun r =>
       String.eqb r.(ClusterRequest.Provisioner).(Provisioner.Provider) "aws"
       && missing AWSProvisionerOptions.SecretAccessKey r.(ClusterRequest.Provisioner);
     rule.message := fun _ => "provisioner.options.secretAccessKey cannot be empty" |}.

Definition createRules {O} : list (rule O) :=
  [ nameGiven; stateGiven; stateAllowed;
    etcdPositive; masterPositive; workerPositive; ingressNotNegative;
    providerGiven; providerKnown; accessKeyGiven; secretKeyGiven ].

(** The violations of a request: the message of every violated rule. *)
Definition violations {O} (r : ClusterRequest O) : list error :=
  map (fun ru => Errorf (rule.message ru r))
      (List.filter (fun ru => rule.violated ru r) createRules).

(** The errors one check adds: its message when it fires, nothing otherwise. *)
Definition when (b : bool) (e : error) : list error := if b then [e] else [].

(** What "all other fields valid" asks of the counts and of the provisioner
  of a request. *)
Definition validCounts {O} (r : ClusterRequest O) : Prop :=
  (0 < r.(ClusterRequest.EtcdCount))%Z
  /\ (0 < r.(ClusterRequest.MasterCount))%Z
  /\ (0 < r.(ClusterRequest.WorkerCount))%Z
  /\ (0 <= r.(ClusterRequest.IngressCount))%Z.

Definition validProvisioner {O} (p : Provisioner O) : Prop :=
  p.(Provisioner.Provider) = "aws"
  /\ exists o, p.(Provisioner.AWSOptions) = Some o
               /\ o.(AWSProvisionerOptions.AccessKeyID) <> ""
               /\ o.(AWSProvisionerOptions.SecretAccessKey) <> "".

(** *** The requests and records of the handler tests

  The embedded [install.AWSProvisionerOptions] is left at its zero value by
  every test; [unit] stands for the struct here. *)

Definition testProvisioner : Provisioner unit :=
  {| Provisioner.Provider := "aws";
     Provisioner.AWSOptions :=
       Some {| AWSProvisionerOptions.AWSProvisionerOptions := tt;
               AWSProvisionerOptions.AccessKeyID := "ACCESS_ID";
               AWSProvisionerOptions.SecretAccessKey := "SECRET" |} |}.

(** The request of [TestValidation] and [TestCreateUpdateGetGetAllandDelete],
  with the fields the tests vary as arguments. *)
Definition testRequest (name desiredState : string) (etcd master worker ingress : Z)
  (p : Provisioner unit) : ClusterRequest unit :=
  {| ClusterRequest.Name := name;
     ClusterRequest.DesiredState := desiredState;
     ClusterRequest.ClusterIP := "";
     ClusterRequest.EtcdCount := etcd;
     ClusterRequest.MasterCount := master;
     ClusterRequest.WorkerCount := worker;
     ClusterRequest.IngressCount := ingress;
     ClusterRequest.Provisioner := p |}.

Definition foo : ClusterRequest unit :=
  testRequest "foo" "installed" 3 2 5 2 testProvisioner.

(** The stored record of the rows of [TestUpdateValidationShouldError]. *)
Definition testInStore (name : string) (etcd master worker ingress : Z)
  : store.Cluster unit :=
  {| store.Cluster.DesiredState := "";
     store.Cluster.CurrentState := "";
     store.Cluster.Plan :=
       {| install.Plan.Cluster := {| install.Cluster.Name := name |};
          install.Plan.Etcd := {| install.NodeGroup.ExpectedCount := etcd |};
          install.Plan.Master :=
            {| install.MasterNodeGroup.ExpectedCount := master;
               install.MasterNodeGroup.LoadBalancedFQDN := "" |};
          install.Plan.Worker := {| install.NodeGroup.ExpectedCount := worker |};
          install.Plan.Ingress :=
            {| install.OptionalNodeGroup.ExpectedCount := ingress |};
          install.Plan.Provisioner :=
            {| install.Provisioner.Provider := "";
               install.Provisioner.AWSOptions := None |} |};
     store.Cluster.CanContinue := false;
     store.Cluster.ProvisionerCredentials := store.ProvisionerCredentials.zero |}.

(** The empty store of the tests, [&mockClustersStore{}]. *)
Definition emptyStore : mockClustersStore unit :=
  {| mockClustersStore.store := None |}.

(** The store after the first request of the tests was accepted. *)
Definition fooStored : mockClustersStore unit :=
  fst (Create (Templates := install.templatePlanner unit) emptyStore (Ok foo)).

(** The record that request left in the store, and the store after the
  record was deleted through the API. *)
Definition fooRecord : store.Cluster unit :=
  {| store.Cluster.DesiredState := "installed";
     store.Cluster.CurrentState := "planned";
     store.Cluster.Plan :=
       {| install.Plan.Cluster := {| install.Cluster.Name := "foo" |};
          install.Plan.Etcd := {| install.NodeGroup.ExpectedCount := 3 |};
          install.Plan.Master :=
            {| install.MasterNodeGroup.ExpectedCount := 2;
               install.MasterNodeGroup.LoadBalancedFQDN := "" |};
          install.Plan.Worker := {| install.NodeGroup.ExpectedCount := 5 |};
          install.Plan.Ingress := {| install.OptionalNodeGroup.ExpectedCount := 2 |};
          install.Plan.Provisioner :=
            {| install.Provisioner.Provider := "aws";
               install.Provisioner.AWSOptions := Some tt |} |};
     store.Cluster.CanContinue := true;
     store.Cluster.ProvisionerCredentials :=
       {| store.ProvisionerCredentials.AWS :=
            {| store.AWSCredentials.AccessKeyId := "ACCESS_ID";
               store.AWSCredentials.SecretAccessKey := "SECRET" |} |} |}.

Definition fooDeleted : mockClustersStore unit := fst (Delete fooStored "foo").

(** *** Requests that differ in one place

  The request with another cluster address, and the request with other keys
  in its provisioner options (a request without options has no keys). *)
Definition withClusterIP {O} (r : ClusterRequest O) (ip : string) : ClusterRequest O :=
  {| ClusterRequest.Name := r.(ClusterRequest.Name);
     ClusterRequest.DesiredState := r.(ClusterRequest.DesiredState);
     ClusterRequest.ClusterIP := ip;
     ClusterRequest.EtcdCount := r.(ClusterRequest.EtcdCount);
     ClusterRequest.MasterCount := r.(ClusterRequest.MasterCount);
     ClusterRequest.WorkerCount := r.(ClusterRequest.WorkerCount);
     ClusterRequest.IngressCount := r.(ClusterRequest.IngressCount);
     ClusterRequest.Provisioner := r.(ClusterRequest.Provisioner) |}.

Definition withKeys {O} (p : Provisioner O) (access secret : string) : Provisioner O :=
  {| Provisioner.Provider := p.(Provisioner.Provider);
     Provisioner.AWSOptions :=
       match p.(Provisioner.AWSOptions) with
       | Some o =>
           Some {| AWSProvisionerOptions.AWSProvisionerOptions :=
                     o.(AWSProvisionerOptions.AWSProvisionerOptions);
                   AWSProvisionerOptions.AccessKeyID := access;
                   AWSProvisionerOptions.SecretAccessKey := secret |}
       | None => None
       end |}.

Definition withProvisioner {O} (r : ClusterRequest O) (p : Provisioner O)
  : ClusterRequest O :=
  {| ClusterRequest.Name := r.(ClusterRequest.Name);
     ClusterRequest.DesiredState := r.(ClusterRequest.DesiredState);
     ClusterRequest.ClusterIP := r.(ClusterRequest.ClusterIP);
     ClusterRequest.EtcdCount := r.(ClusterRequest.EtcdCount);
     ClusterRequest.MasterCount := r.(ClusterRequest.MasterCount);
     ClusterRequest.WorkerCount := r.(ClusterRequest.WorkerCount);
     ClusterRequest.IngressCount := r.(ClusterRequest.IngressCount);
     ClusterRequest.Provisioner := p |}.

(** *** The assets directory of the handler tests (mockAssetsDir)

  The files the tests make under the assets directory: the directory
  [foo/assets] with the file [kubeconfig] in it, and the file
  [foo/kismatic.log].  A path is its elements joined by slashes.  The state
  is the list of the temporary files present: one is made under the name
  asked for, followed by a zero, archiving into it succeeds, and removing it
  takes it off the list. *)
Definition testAssetsDir : string := "/tmp/ket-server-assets".

Definition testFiles : os.FileSystem (list string) :=
  {| os.Join := String.concat "/";
     os.Stat := fun fs name =>
       if String.eqb name "/tmp/ket-server-assets/foo/assets" then os.FileInfo true
       else if String.eqb name "/tmp/ket-server-assets/foo/assets/kubeconfig"
       then os.FileInfo false
       else if String.eqb name "/tmp/ket-server-assets/foo/kismatic.log"
       then os.FileInfo false
       else if existsb (String.eqb name) fs then os.FileInfo false
       else os.ErrNotExist;
     os.TempFile := fun fs dir prefix =>
       let name := String.concat "/" [dir; prefix +:+ "0"] in
       (name :: fs, Ok name);
     os.TarGz_Make := fun fs _ _ => (fs, None);
     os.Remove := fun fs name => List.filter (fun f => negb (String.eqb name f)) fs |}.

(** A file system that refuses every access: [os.Stat] fails with an error
  that is not the one of a missing file, and no temporary file is made. *)
Definition deniedFiles : os.FileSystem unit :=
  {| os.Join := String.concat "/";
     os.Stat := fun _ _ => os.ErrOther;
     os.TempFile := fun fs _ _ => (fs, Err (Errorf "permission denied"));
     os.TarGz_Make := fun fs _ _ => (fs, Some (Errorf "permission denied"));
     os.Remove := fun fs _ => fs |}.

(** The store of [TestGetKubeconfig] and [TestGetLogs]: empty records under
  the names "foo" and "foobar". *)
Definition zeroCluster : store.Cluster unit := testInStore "" 0 0 0 0.

Definition testStore : mockClustersStore unit :=
  fst (mockClustersStore.Put
         (fst (mockClustersStore.Put emptyStore "foo" zeroCluster))
         "foobar" zeroCluster).

(** * Properties of validation *)

Section ValidationFacts.
Context {O : Type}.

Lemma addError_when (v : validator) (b : bool) (e : error) :
  (if b then validator.addError v [e] else v) = validator.addError v (when b e).
Proof.
  destruct v as [l], b; unfold validator.addError, when; cbn [validator.errs].
  - reflexivity.
  - now rewrite app_nil_r.
Qed.

Lemma addError_addError (v : validator) (l1 l2 : list error) :
  validator.addError (validator.addError v l1) l2
  = validator.addError v (l1 ++ l2)%list.
Proof.
  unfold validator.addError; cbn [validator.errs]. now rewrite app_assoc.
Qed.

(** The two checks of the desired state add at most one error. *)
Lemma addError_state (v : validator) (b c : bool) (e1 e2 : error) :
  (if b then validator.addError v [e1]
   else if negb c then validator.addError v [e2] else v)
  = validator.addError v (when b e1 ++ when (negb b && negb c) e2)%list.
Proof.
  destruct v as [l], b, c; unfold validator.addError, when;
    cbn [validator.errs negb andb app]; rewrite ?app_nil_r; reflexivity.
Qed.

Lemma valid_errs (l : list error) :
  validator.valid {| validator.errs := l |}
  = (match l with [] => true | _ :: _ => false end, l).
Proof. destruct l; reflexivity. Qed.

(** [v.validate(obj)] adds every error that [obj.validate()] returns. *)
Lemma validate_adds (v : validator) (l : list error) :
  (let '(ok, err) := (match l with [] => true | _ :: _ => false end, l) in
   if negb ok then validator.addError v err else v) = validator.addError v l.
Proof.
  destruct l, v as [l0]; unfold validator.addError; cbn.
  - now rewrite app_nil_r.
  - reflexivity.
Qed.

Lemma map_filter_cons {A B} (f : A -> B) (p : A -> bool) (x : A) (l : list A) :
  map f (List.filter p (x :: l))
  = ((if p x then [f x] else []) ++ map f (List.filter p l))%list.
Proof. cbn [List.filter]. destruct (p x); reflexivity. Qed.

Lemma Contains_In (x : string) (xs : list string) :
  util.Contains x xs = true <-> In x xs.
Proof.
  induction xs as [|s xs IH]; cbn.
  - split; [discriminate | tauto].
  - destruct (String.eqb_spec s x) as [->|Hne].
    + tauto.
    + rewrite IH. split; [tauto | intros [?|?]; [contradiction | assumption]].
Qed.

Lemma Provisioner_validate_errs (p : Provisioner O) :
  Provisioner_validate p =
    validator.valid
      {| validator.errs :=
          (when (String.eqb p.(Provisioner.Provider) "")
             (Errorf "provisioner.provider cannot be empty")
           ++ when (negb (String.eqb p.(Provisioner.Provider) "")
                    && negb (util.Contains p.(Provisioner.Provider) validProvisionerProviders))
                (Errorf (p.(Provisioner.Provider)
                         +:+ " is not a valid provisioner.provider, options are: [aws]"))
           ++ when (String.eqb p.(Provisioner.Provider) "aws"
                    && missing AWSProvisionerOptions.AccessKeyID p)
                (Errorf "provisioner.options.accessKeyID cannot be empty")
           ++ when (String.eqb p.(Provisioner.Provider) "aws"
                    && missing AWSProvisionerOptions.SecretAccessKey p)
                (Errorf "provisioner.options.secretAccessKey cannot be empty"))%list |}.
Proof.
  destruct p as [provider opts].
  unfold Provisioner_validate, missing, newValidator.
  cbn [Provisioner.Provider Provisioner.AWSOptions].
  destruct (String.eqb provider "") eqn:Hempty.
  - apply String.eqb_eq in Hempty. subst provider. reflexivity.
  - f_equal.
    destruct (util.Contains provider validProvisionerProviders),
      (String.eqb provider "aws"), opts as [[o k s]|];
      cbn [AWSProvisionerOptions.AccessKeyID AWSProvisionerOptions.SecretAccessKey
           negb andb when app validator.addError validator.errs];
      try destruct (String.eqb k ""); try destruct (String.eqb s "");
      reflexivity.
Qed.

(** The validation of a request returns the violations of the table, in the
  order of the table. *)
Lemma validate_eq_violations (r : ClusterRequest O) :
  ClusterRequest_validate r =
    (match violations r with [] => true | _ :: _ => false end, violations r).
Proof.
  unfold ClusterRequest_validate, validator.validate, validate, Provisioner_validatable.
  rewrite Provisioner_validate_errs, valid_errs, validate_adds, addError_state,
    !addError_when, !addError_addError.
  unfold newValidator, validator.addError; cbn [validator.errs app].
  rewrite valid_errs.
  unfold violations, createRules. rewrite !map_filter_cons.
  unfold nameGiven, stateGiven, stateAllowed, etcdPositive, masterPositive,
    workerPositive, ingressNotNegative, providerGiven, providerKnown,
    accessKeyGiven, secretKeyGiven, when.
  cbn [rule.violated rule.message List.filter map].
  rewrite (Z.leb_antisym 0 (ClusterRequest.EtcdCount r)),
    (Z.leb_antisym 0 (ClusterRequest.MasterCount r)),
    (Z.leb_antisym 0 (ClusterRequest.WorkerCount r)),
    (Z.ltb_antisym 0 (ClusterRequest.IngressCount r)).
  rewrite app_nil_r, <- !app_assoc. reflexivity.
Qed.

Lemma violation_reported (r : ClusterRequest O) (ru : rule O) :
  In ru createRules -> rule.violated ru r = true ->
  fst (ClusterRequest_validate r) = false
  /\ In (Errorf (rule.message ru r)) (snd (ClusterRequest_validate r)).
Proof.
  intros Hin Hv. rewrite validate_eq_violations; cbn [fst snd].
  assert (H : In (Errorf (rule.message ru r)) (violations r)).
  { unfold violations.
    apply (in_map (fun ru => Errorf (rule.message ru r))).
    apply filter_In. split; assumption. }
  destruct (violations r); [contradiction | split; [reflexivity | assumption]].
Qed.

Lemma validate_passes (r : ClusterRequest O) :
  r.(ClusterRequest.Name) <> "" ->
  r.(ClusterRequest.DesiredState) = "installed" ->
  validCounts r ->
  validProvisioner r.(ClusterRequest.Provisioner) ->
  ClusterRequest_validate r = (true, []).
Proof.
  intros Hname Hstate (He & Hm & Hw & Hi) (Hp & o & Ho & Hk & Hs).
  rewrite validate_eq_violations.
  assert (Hnil : violations r = []); [| now rewrite Hnil].
  unfold violations, createRules, nameGiven, stateGiven, stateAllowed, etcdPositive,
    masterPositive, workerPositive, ingressNotNegative, providerGiven, providerKnown,
    accessKeyGiven, secretKeyGiven, missing.
  cbn [List.filter rule.violated].
  rewrite Hstate, Hp, Ho.
  apply String.eqb_neq in Hname, Hk, Hs. rewrite Hname, Hk, Hs.
  apply Z.ltb_lt in He, Hm, Hw. apply Z.leb_le in Hi. rewrite He, Hm, Hw, Hi.
  reflexivity.
Qed.

End ValidationFacts.

Section Validation.
Context {O : Type}.

(** C5: create validation never short-circuits.  The errors returned are the
  messages of all the violated rules of the table, one per violated rule and
  in the order of the table; so every violated rule is reported, and
  validation passes exactly when no rule is violated. *)
Theorem validate_collects_all_violations (r : ClusterRequest O) :
  validate r
  = (match violations r with [] => true | _ :: _ => false end, violations r)
  /\ (forall ru : rule O,
        In ru createRules -> rule.violated ru r = true ->
        In (Errorf (rule.message ru r)) (snd (validate r)))
  /\ length (snd (validate r))
     = length (List.filter (fun ru => rule.violated ru r) createRules).
Proof.
  change (validate r) with (ClusterRequest_validate r).
  split; [apply validate_eq_violations |].
  split; [intros ru Hin Hv; apply (violation_reported r ru Hin Hv) |].
  rewrite validate_eq_violations; cbn [snd]. unfold violations. apply length_map.
Qed.

(** C1 (amended): a create request whose desired state is "installed" and whose
  other fields are valid passes validation; a create request whose desired
  state is given and is not "installed" fails it, with the violation that names
  the state as invalid. *)
Theorem validate_desiredState (r : ClusterRequest O) :
  (r.(ClusterRequest.DesiredState) = "installed" ->
   r.(ClusterRequest.Name) <> "" -> validCounts r ->
   validProvisioner r.(ClusterRequest.Provisioner) ->
   validate r = (true, []))
  /\ (r.(ClusterRequest.DesiredState) <> "" ->
      r.(ClusterRequest.DesiredState) <> "installed" ->
      fst (validate r) = false
      /\ In (Errorf (r.(ClusterRequest.DesiredState)
                     +:+ " is not a valid desiredState, options are: [installed]"))
            (snd (validate r))).
Proof.
  change (validate r) with (ClusterRequest_validate r). split.
  - intros Hstate Hname Hcounts Hprov. now apply validate_passes.
  - intros Hgiven Hother.
    apply (violation_reported r stateAllowed).
    + cbn. tauto.
    + cbn [rule.violated stateAllowed].
      apply String.eqb_neq in Hgiven. rewrite Hgiven.
      destruct (util.Contains _ validStates) eqn:Hc; [| reflexivity].
      apply Contains_In in Hc. destruct Hc as [Hc | []]. congruence.
Qed.

(** C6: a create request fails validation when its etcd, master or worker
  count is not positive and when its ingress count is negative, each with the
  violation of that count; a request that is otherwise valid and asks for no
  ingress node passes. *)
Theorem validate_counts (r : ClusterRequest O) :
  ((r.(ClusterRequest.EtcdCount) <= 0)%Z ->
   fst (validate r) = false
   /\ In (Errorf "cluster.etcdCount must be greater than 0") (snd (validate r)))
  /\ ((r.(ClusterRequest.MasterCount) <= 0)%Z ->
      fst (validate r) = false
      /\ In (Errorf "cluster.masterCount must be greater than 0") (snd (validate r)))
  /\ ((r.(ClusterRequest.WorkerCount) <= 0)%Z ->
      fst (validate r) = false
      /\ In (Errorf "cluster.workerCount must be greater than 0") (snd (validate r)))
  /\ ((r.(ClusterRequest.IngressCount) < 0)%Z ->
      fst (validate r) = false
      /\ In (Errorf "cluster.ingressCount must be greater than or equal to 0")
            (snd (validate r)))
  /\ (r.(ClusterRequest.Name) <> "" ->
      r.(ClusterRequest.DesiredState) = "installed" ->
      (0 < r.(ClusterRequest.EtcdCount))%Z ->
      (0 < r.(ClusterRequest.MasterCount))%Z ->
      (0 < r.(ClusterRequest.WorkerCount))%Z ->
      r.(ClusterRequest.IngressCount) = 0%Z ->
      validProvisioner r.(ClusterRequest.Provisioner) ->
      validate r = (true, [])).
Proof.
  change (validate r) with (ClusterRequest_validate r).
  repeat split.
  - apply (violation_reported r etcdPositive); [cbn; tauto |].
    cbn [rule.violated etcdPositive]. apply negb_true_iff, Z.ltb_ge. assumption.
  - apply (violation_reported r etcdPositive); [cbn; tauto |].
    cbn [rule.violated etcdPositive]. apply negb_true_iff, Z.ltb_ge. assumption.
  - apply (violation_reported r masterPositive); [cbn; tauto |].
    cbn [rule.violated masterPositive]. apply negb_true_iff, Z.ltb_ge. assumption.
  - apply (violation_reported r masterPositive); [cbn; tauto |].
    cbn [rule.violated masterPositive]. apply negb_true_iff, Z.ltb_ge. assumption.
  - apply (violation_reported r workerPositive); [cbn; tauto |].
    cbn [rule.violated workerPositive]. apply negb_true_iff, Z.ltb_ge. assumption.
  - apply (violation_reported r workerPositive); [cbn; tauto |].
    cbn [rule.violated workerPositive]. apply negb_true_iff, Z.ltb_ge. assumption.
  - apply (violation_reported r ingressNotNegative); [cbn; tauto |].
    cbn [rule.violated ingressNotNegative]. apply negb_true_iff, Z.leb_gt. assumption.
  - apply (violation_reported r ingressNotNegative); [cbn; tauto |].
    cbn [rule.violated ingressNotNegative]. apply negb_true_iff, Z.leb_gt. assumption.
  - intros Hname Hstate He Hm Hw Hi Hprov.
    apply validate_passes; try assumption.
    unfold validCounts. rewrite Hi. lia.
Qed.

(** C9: when the provider of a provisioner is given and is not a known one,
  its validation reports the invalid provider and nothing else: no error on
  the credentials, whether the options are nil or their fields empty. *)
Theorem Provisioner_validate_unknown_provider (p : Provisioner O) :
  p.(Provisioner.Provider) <> "" ->
  ~ In p.(Provisioner.Provider) validProvisionerProviders ->
  validate p
  = (false,
     [Errorf (p.(Provisioner.Provider)
              +:+ " is not a valid provisioner.provider, options are: [aws]")]).
Proof.
  intros Hgiven Hunknown.
  change (validate p) with (Provisioner_validate p).
  rewrite Provisioner_validate_errs, valid_errs.
  apply String.eqb_neq in Hgiven. rewrite Hgiven.
  destruct (util.Contains _ validProvisionerProviders) eqn:Hc.
  { apply Contains_In in Hc. contradiction. }
  destruct (String.eqb_spec (Provisioner.Provider p) "aws") as [Haws | _].
  { exfalso. apply Hunknown. rewrite Haws. cbn. tauto. }
  reflexivity.
Qed.

End Validation.

(** * Properties of the records built and of the responses *)

Section Responses.
Context {O : Type}.

(** C2: the response built for a stored record holds no credential: the
  access key and the secret key of its provisioner options, when it has
  options, are empty; replacing the credentials of the record leaves the
  response as it was; and two records with the same states and the same plan
  have the same response. *)
Theorem buildResponse_hides_credentials (name : string) (sc : store.Cluster O) :
  match (buildResponse name sc).(ClusterResponse.Provisioner).(Provisioner.AWSOptions) with
  | Some o =>
      o.(AWSProvisionerOptions.AccessKeyID) = ""
      /\ o.(AWSProvisionerOptions.SecretAccessKey) = ""
  | None => True
  end
  /\ (forall creds : store.ProvisionerCredentials,
        buildResponse name (store.Cluster.with_ProvisionerCredentials sc creds)
        = buildResponse name sc)
  /\ (forall sc' : store.Cluster O,
        sc'.(store.Cluster.DesiredState) = sc.(store.Cluster.DesiredState) ->
        sc'.(store.Cluster.CurrentState) = sc.(store.Cluster.CurrentState) ->
        sc'.(store.Cluster.Plan) = sc.(store.Cluster.Plan) ->
        buildResponse name sc' = buildResponse name sc).
Proof.
  split; [| split].
  - unfold buildResponse; cbn [ClusterResponse.Provisioner].
    destruct (String.eqb _ "aws");
      [destruct (install.Provisioner.AWSOptions _) |]; cbn; auto.
  - intros creds. reflexivity.
  - intros sc' Hd Hc Hp. unfold buildResponse. rewrite Hd, Hc, Hp. reflexivity.
Qed.

End Responses.

(** * Properties of the handlers *)

Section HandlerFacts.
Context {O S : Type} {Store : store.ClusterStore O S} {Templates : install.Planner O}.

(** What a record built for a request holds. *)
Lemma buildStoreCluster_Ok (req : ClusterRequest O) (sc : store.Cluster O) :
  buildStoreCluster req = Ok sc ->
  exists (planner : install.BytesPlanner) (p : install.Plan O),
    install.WritePlanTemplate
      {| install.PlanTemplateOptions.EtcdNodes := req.(ClusterRequest.EtcdCount);
         install.PlanTemplateOptions.MasterNodes := req.(ClusterRequest.MasterCount);
         install.PlanTemplateOptions.WorkerNodes := req.(ClusterRequest.WorkerCount);
         install.PlanTemplateOptions.IngressNodes := req.(ClusterRequest.IngressCount) |}
      install.BytesPlanner_zero = (planner, None)
    /\ install.Read planner = Ok p
    /\ sc.(store.Cluster.DesiredState) = req.(ClusterRequest.DesiredState)
    /\ sc.(store.Cluster.CurrentState) = "planned"
    /\ sc.(store.Cluster.CanContinue) = true
    /\ sc.(store.Cluster.Plan).(install.Plan.Etcd) = p.(install.Plan.Etcd)
    /\ sc.(store.Cluster.Plan).(install.Plan.Master) = p.(install.Plan.Master)
    /\ sc.(store.Cluster.Plan).(install.Plan.Worker) = p.(install.Plan.Worker)
    /\ sc.(store.Cluster.Plan).(install.Plan.Ingress) = p.(install.Plan.Ingress).
Proof.
  unfold buildStoreCluster.
  destruct (install.WritePlanTemplate _ _) as [planner [err|]]; [discriminate |].
  destruct (install.Read planner) as [p|err] eqn:Hread; [| discriminate].
  intros [= <-]. exists planner, p.
  split; [reflexivity |]. split; [assumption |].
  destruct (String.eqb _ "aws");
    destruct (Provisioner.AWSOptions (ClusterRequest.Provisioner req));
    cbn; repeat split; reflexivity.
Qed.

(** [Create] answers 202 only on its last line: the request was decoded and
  is valid, the name was free, the record was built and [Put] took it. *)
Lemma Create_Accepted (cs cs' : S) (body : result (ClusterRequest O))
  (resp : Response O) :
  Create cs body = (cs', resp) ->
  resp.(Response.Code) = http.StatusAccepted ->
  exists (req : ClusterRequest O) (sc : store.Cluster O),
    body = Ok req
    /\ fst (validate req) = true
    /\ store.Get cs req.(ClusterRequest.Name) = Ok None
    /\ buildStoreCluster req = Ok sc
    /\ store.Put cs req.(ClusterRequest.Name) sc = (cs', None).
Proof.
  unfold Create, existsInStore, putToStore.
  destruct body as [req|err]; [| intros [= <- <-]; discriminate].
  destruct (validate req) as [valid errs] eqn:Hvalid.
  destruct valid; cbn [negb]; [| intros [= <- <-]; discriminate].
  destruct (store.Get cs _) as [[found|]|err] eqn:Hget;
    try (intros [= <- <-]; discriminate).
  destruct (buildStoreCluster req) as [sc|err] eqn:Hbuild;
    [| intros [= <- <-]; discriminate].
  destruct (store.Put cs _ sc) as [cs1 [err|]] eqn:Hput;
    intros [= <- <-]; [discriminate |].
  intros _. exists req, sc. rewrite Hvalid.
  repeat split; first [assumption | reflexivity].
Qed.

(** [Create] leaves the store it was given unless it answers 202. *)
Lemma Create_not_Accepted `{!store.ClusterStoreLaws O S}
  (cs cs' : S) (body : result (ClusterRequest O)) (resp : Response O) :
  Create cs body = (cs', resp) ->
  resp.(Response.Code) <> http.StatusAccepted ->
  cs' = cs.
Proof.
  unfold Create, existsInStore, putToStore.
  destruct body as [req|err]; [| intros [= <- <-]; reflexivity].
  destruct (validate req) as [valid errs].
  destruct valid; cbn [negb]; [| intros [= <- <-]; reflexivity].
  destruct (store.Get cs _) as [[found|]|err];
    try (intros [= <- <-]; reflexivity).
  destruct (buildStoreCluster req) as [sc|err];
    [| intros [= <- <-]; reflexivity].
  destruct (store.Put cs _ sc) as [cs1 [err|]] eqn:Hput; intros [= <- <-].
  - intros _. apply (store.Put_failed _ _ _ _ _ Hput).
  - intros Hcode. contradiction Hcode. reflexivity.
Qed.

End HandlerFacts.

Section Handlers.
Context {O S : Type} {Store : store.ClusterStore O S} {Templates : install.Planner O}.

(** C8: when the backend holds no record, be it that it returns a nil map or
  an empty one, reading all records gives the empty map and [GetAll] answers
  200 with the empty list; the map read is never nil; reading fails exactly
  when the backend fails, and so does [GetAll] answer anything but 200. *)
Theorem GetAll_of_an_empty_store (cs : S) :
  (store.GetAll cs = Ok None \/ store.GetAll cs = Ok (Some ∅) ->
   getAllFromStore cs = Ok (Some ∅)
   /\ GetAll cs
      = (cs, {| Response.Code := http.StatusOK; Response.Body := Clusters [] |}))
  /\ getAllFromStore cs <> Ok None
  /\ ((exists err, getAllFromStore cs = Err err)
      <-> (exists err, store.GetAll cs = Err err))
  /\ (Response.Code (snd (GetAll cs)) <> http.StatusOK
      <-> (exists err, store.GetAll cs = Err err)).
Proof.
  unfold GetAll, getAllFromStore. split; [| split; [| split]].
  - intros [-> | ->]; (split; [reflexivity |]); cbn [from_option id];
      now rewrite map_to_list_empty.
  - destruct (store.GetAll cs) as [[m|]|err]; discriminate.
  - destruct (store.GetAll cs) as [[m|]|err]; split; intros [e He];
      try discriminate; eauto.
  - destruct (store.GetAll cs) as [[m|]|err]; cbn [snd Response.Code]; split;
      try (intros [e He]; discriminate); try (intros H; now contradiction H);
      try discriminate; eauto.
Qed.

Context `{!store.ClusterStoreLaws O S}.

(** C4: deleting through the API keeps the record and marks it.  For every
  record [c] that a name has, the record [c'] that [Delete] puts has the
  desired state "destroyed" and may continue, and its current state, plan and
  credentials are those of [c].  When the store takes the [Put], [Delete]
  answers 202 and the name has the record [c'] afterwards; when the store
  refuses it, [Delete] answers 500 and the name still has [c].  So whatever
  [Delete] answers the name has a record afterwards, and after a 202 that
  record is [c'].  For a name with no record [Delete] answers 404 and leaves
  the store as it was. *)
Theorem Delete_keeps_the_record (cs : S) (id : string) :
  (forall c : store.Cluster O,
     store.Get cs id = Ok (Some c) ->
     exists c' : store.Cluster O,
       c'.(store.Cluster.DesiredState) = "destroyed"
       /\ c'.(store.Cluster.CanContinue) = true
       /\ c'.(store.Cluster.CurrentState) = c.(store.Cluster.CurrentState)
       /\ c'.(store.Cluster.Plan) = c.(store.Cluster.Plan)
       /\ c'.(store.Cluster.ProvisionerCredentials)
          = c.(store.Cluster.ProvisionerCredentials)
       /\ (forall cs' : S,
             store.Put cs id c' = (cs', None) ->
             Delete cs id
             = (cs', {| Response.Code := http.StatusAccepted;
                        Response.Body := Text ("ok" +:+ newline) |})
             /\ store.Get cs' id = Ok (Some c'))
       /\ (forall (cs' : S) (err : error),
             store.Put cs id c' = (cs', Some err) ->
             Delete cs id = (cs, WriteHeader http.StatusInternalServerError)
             /\ store.Get cs id = Ok (Some c))
       /\ (forall (cs' : S) (resp : Response O),
             Delete cs id = (cs', resp) ->
             (exists c'', store.Get cs' id = Ok (Some c''))
             /\ (resp.(Response.Code) = http.StatusAccepted ->
                 store.Get cs' id = Ok (Some c'))))
  /\ (store.Get cs id = Ok None ->
      Delete cs id = (cs, WriteHeader http.StatusNotFound)).
Proof.
  unfold Delete, getFromStore, putToStore. split.
  - intros c Hget. rewrite Hget.
    exists (store.Cluster.with_CanContinue
              (store.Cluster.with_DesiredState c "destroyed") true).
    do 5 (split; [reflexivity |]).
    split; [| split].
    + intros cs' Hput. rewrite Hput. split; [reflexivity |].
      apply (store.Get_Put _ _ _ _ Hput).
    + intros cs' err Hput. rewrite Hput.
      apply store.Put_failed in Hput. subst cs'. split; reflexivity.
    + intros cs' resp.
      destruct (store.Put cs id _) as [cs1 [err|]] eqn:Hput; intros [= <- <-].
      * apply store.Put_failed in Hput. subst cs1.
        split; [eauto | discriminate].
      * apply store.Get_Put in Hput. split; [eauto | intros _; exact Hput].
  - intros Hget. rewrite Hget. reflexivity.
Qed.

(** C10: [Create] writes to the store at most once, and only after every
  check has succeeded.  When it does not answer 202 the store is as it was
  before the call; when it answers 202 the request was decoded and valid, its
  name had no record, the record was built, and the store is the one the
  single [Put] of that record left. *)
Theorem Create_is_atomic (cs : S) (body : result (ClusterRequest O)) :
  ((snd (Create cs body)).(Response.Code) <> http.StatusAccepted ->
   fst (Create cs body) = cs)
  /\ ((snd (Create cs body)).(Response.Code) = http.StatusAccepted ->
      exists (req : ClusterRequest O) (sc : store.Cluster O),
        body = Ok req
        /\ fst (validate req) = true
        /\ store.Get cs req.(ClusterRequest.Name) = Ok None
        /\ buildStoreCluster req = Ok sc
        /\ store.Put cs req.(ClusterRequest.Name) sc = (fst (Create cs body), None)).
Proof.
  destruct (Create cs body) as [cs' resp] eqn:Hcreate. cbn [fst snd]. split.
  - now apply (Create_not_Accepted cs cs' body resp).
  - now apply (Create_Accepted cs cs' body resp).
Qed.

Context `{!install.PlannerExpands O}.

(** C7: after a [Create] that answered 202, the name of the request has a
  record whose current state is "planned" and which may continue, and [Get]
  of that name answers 200 with a response whose etcd, master, worker and
  ingress counts are those of the request. *)
Theorem Create_then_Get (cs cs' : S) (req : ClusterRequest O) (resp : Response O) :
  Create cs (Ok req) = (cs', resp) ->
  resp.(Response.Code) = http.StatusAccepted ->
  exists (sc : store.Cluster O) (r : ClusterResponse O),
    store.Get cs' req.(ClusterRequest.Name) = Ok (Some sc)
    /\ sc.(store.Cluster.CurrentState) = "planned"
    /\ sc.(store.Cluster.CanContinue) = true
    /\ Get cs' req.(ClusterRequest.Name)
       = (cs', {| Response.Code := http.StatusOK; Response.Body := OneCluster r |})
    /\ r.(ClusterResponse.Name) = req.(ClusterRequest.Name)
    /\ r.(ClusterResponse.CurrentState) = "planned"
    /\ r.(ClusterResponse.EtcdCount) = req.(ClusterRequest.EtcdCount)
    /\ r.(ClusterResponse.MasterCount) = req.(ClusterRequest.MasterCount)
    /\ r.(ClusterResponse.WorkerCount) = req.(ClusterRequest.WorkerCount)
    /\ r.(ClusterResponse.IngressCount) = req.(ClusterRequest.IngressCount).
Proof.
  intros Hcreate Hcode.
  destruct (Create_Accepted _ _ _ _ Hcreate Hcode)
    as (req' & sc & [= <-] & _ & _ & Hbuild & Hput).
  apply store.Get_Put in Hput.
  destruct (buildStoreCluster_Ok _ _ Hbuild)
    as (planner & p & Hwrite & Hread & _ & Hcur & Hcan & He & Hm & Hw & Hi).
  destruct (install.Read_WritePlanTemplate _ _ _ Hwrite Hread)
    as (Hpe & Hpm & Hpw & Hpi).
  cbn in Hpe, Hpm, Hpw, Hpi.
  exists sc, (buildResponse req.(ClusterRequest.Name) sc).
  split; [assumption |]. split; [assumption |]. split; [assumption |].
  split; [unfold Get, getFromStore; now rewrite Hput |].
  unfold buildResponse; cbn.
  rewrite He, Hm, Hw, Hi. repeat split; assumption.
Qed.

End Handlers.

(** * Validation of a patch *)

Section Patch.
Context {O : Type}.

Lemma clusterPatch_validate_errs (p : clusterPatch O) :
  clusterPatch_validate p =
    validator.valid
      {| validator.errs :=
          (violations p.(clusterPatch.request)
           ++ when (negb (String.eqb p.(clusterPatch.id)
                            p.(clusterPatch.request).(ClusterRequest.Name)))
                (Errorf "name must be the name of the cluster addressed")
           ++ when (negb (String.eqb p.(clusterPatch.request).(ClusterRequest.Name)
                            p.(clusterPatch.inStore).(store.Cluster.Plan).(install.Plan.Cluster).(install.Cluster.Name)))
                (Errorf "name cannot be changed")
           ++ when (negb (p.(clusterPatch.request).(ClusterRequest.EtcdCount)
                          =? p.(clusterPatch.inStore).(store.Cluster.Plan).(install.Plan.Etcd).(install.NodeGroup.ExpectedCount))%Z)
                (Errorf "cluster.etcdCount cannot be changed"))%list |}.
Proof.
  unfold clusterPatch_validate, validator.validate, validate, ClusterRequest_validatable.
  rewrite validate_eq_violations, validate_adds, !addError_when, !addError_addError.
  unfold newValidator, validator.addError; cbn [validator.errs app].
  now rewrite <- ?app_assoc.
Qed.

(** C3: the validation of a patch fails whenever the name addressed differs
  from the name of the request, or the name of the request from the name
  stored, or the etcd count of the request from the etcd count stored; when
  the three agree and the request passes the validation of a create request,
  the patch passes, whatever its master, worker and ingress counts and its
  credentials are. *)
Theorem clusterPatch_validate_identity (p : clusterPatch O) :
  (p.(clusterPatch.id) <> p.(clusterPatch.request).(ClusterRequest.Name)
   \/ p.(clusterPatch.request).(ClusterRequest.Name)
      <> p.(clusterPatch.inStore).(store.Cluster.Plan).(install.Plan.Cluster).(install.Cluster.Name)
   \/ p.(clusterPatch.request).(ClusterRequest.EtcdCount)
      <> p.(clusterPatch.inStore).(store.Cluster.Plan).(install.Plan.Etcd).(install.NodeGroup.ExpectedCount) ->
   fst (validate p) = false)
  /\ (p.(clusterPatch.id) = p.(clusterPatch.request).(ClusterRequest.Name) ->
      p.(clusterPatch.request).(ClusterRequest.Name)
      = p.(clusterPatch.inStore).(store.Cluster.Plan).(install.Plan.Cluster).(install.Cluster.Name) ->
      p.(clusterPatch.request).(ClusterRequest.EtcdCount)
      = p.(clusterPatch.inStore).(store.Cluster.Plan).(install.Plan.Etcd).(install.NodeGroup.ExpectedCount) ->
      fst (validate p.(clusterPatch.request)) = true ->
      validate p = (true, [])).
Proof.
  change (validate p) with (clusterPatch_validate p).
  change (validate (clusterPatch.request p))
    with (ClusterRequest_validate (clusterPatch.request p)).
  rewrite clusterPatch_validate_errs, valid_errs, validate_eq_violations.
  cbn [fst]. split.
  - intros Hdiff.
    destruct (violations _); [| reflexivity]. cbn [app].
    destruct Hdiff as [H | [H | H]].
    + apply String.eqb_neq in H. rewrite H. reflexivity.
    + apply String.eqb_neq in H. rewrite H.
      destruct (negb _); reflexivity.
    + apply Z.eqb_neq in H. rewrite H.
      do 2 (destruct (negb (String.eqb _ _))); reflexivity.
  - intros Hid Hname Hetcd Hreq.
    destruct (violations _); [| discriminate]. cbn [app].
    apply String.eqb_eq in Hid, Hname. apply Z.eqb_eq in Hetcd.
    rewrite Hid, Hname, Hetcd. reflexivity.
Qed.

End Patch.

(** The rows of [TestUpdateValidationShouldError], each with the verdict the
  test expects of it; the validation of a patch gives every one of them. *)
Lemma TestUpdateValidationShouldError :
  let row id req inStore :=
    fst (validate {| clusterPatch.id := id; clusterPatch.request := req;
                     clusterPatch.inStore := inStore |}) in
  let stored := testInStore "foo" 3 2 5 2 in
  let newKeys :=
    {| Provisioner.Provider := "aws";
       Provisioner.AWSOptions :=
         Some {| AWSProvisionerOptions.AWSProvisionerOptions := tt;
                 AWSProvisionerOptions.AccessKeyID := "ACCESS_ID_NEW";
                 AWSProvisionerOptions.SecretAccessKey := "SECRET_NEW" |} |} in
  [ row "foo" foo stored;
    row "foo" (testRequest "foo" "installed" 3 2 5 0 testProvisioner) stored;
    row "foo" (testRequest "foo" "installed" 3 3 6 3 newKeys) stored;
    row "bar" foo stored;
    row "foo" (testRequest "bar" "installed" 3 2 5 2 testProvisioner) stored;
    row "foo" foo (testInStore "bar" 3 2 5 2);
    row "foo" (testRequest "foo" "installed" 5 2 5 2 testProvisioner) stored;
    row "foo" (testRequest "foo" "installed" 3 0 5 2 testProvisioner) stored;
    row "foo" (testRequest "foo" "installed" 3 2 0 2 testProvisioner) stored;
    row "foo" (testRequest "foo" "installed" 3 2 5 (-1) testProvisioner) stored ]
  = [ true; true; true; false; false; false; false; false; false; false ].
Proof. vm_compute. reflexivity. Qed.

(** * Further properties of validation *)

Section ValidationExactly.
Context {O : Type}.

Lemma Provisioner_validate_true (p : Provisioner O) :
  fst (Provisioner_validate p) = true <-> validProvisioner p.
Proof.
  rewrite Provisioner_validate_errs, valid_errs. cbn [fst].
  unfold validProvisioner, missing. destruct p as [provider opts].
  cbn [Provisioner.Provider Provisioner.AWSOptions].
  destruct (String.eqb_spec provider "") as [-> | Hgiven].
  { cbn. split; [discriminate | intros [Haws _]; discriminate Haws]. }
  destruct (String.eqb_spec provider "aws") as [-> | Hother].
  - destruct opts as [o|].
    + destruct (String.eqb_spec (AWSProvisionerOptions.AccessKeyID o) "") as [Hk|Hk];
        destruct (String.eqb_spec (AWSProvisionerOptions.SecretAccessKey o) "") as [Hs|Hs];
        cbn; split; try discriminate;
        try (intros [_ (o' & Ho & Hk' & Hs')]; injection Ho as <-; contradiction).
      * intros _. split; [reflexivity |]. exists o. repeat split; assumption.
      * reflexivity.
    + cbn. split; [discriminate | intros [_ (o' & Ho & _)]; discriminate Ho].
  - destruct (util.Contains provider validProvisionerProviders) eqn:Hc.
    { apply Contains_In in Hc. destruct Hc as [Hc | []]. congruence. }
    cbn. split; [discriminate | intros [Haws _]; contradiction].
Qed.

(** A provisioner passes its validation exactly when its provider is "aws"
  and its options are given with both keys.  With no provider it gets the
  one error that asks for a provider, whatever its options are; with the
  provider "aws" and no options it gets the two errors on the keys. *)
Theorem Provisioner_validate_passes_exactly (p : Provisioner O) :
  (validate p = (true, []) <-> validProvisioner p)
  /\ (fst (validate p) = true <-> validProvisioner p)
  /\ (p.(Provisioner.Provider) = "" ->
      validate p = (false, [Errorf "provisioner.provider cannot be empty"]))
  /\ (p.(Provisioner.Provider) = "aws" -> p.(Provisioner.AWSOptions) = None ->
      validate p
      = (false, [Errorf "provisioner.options.accessKeyID cannot be empty";
                 Errorf "provisioner.options.secretAccessKey cannot be empty"])).
Proof.
  change (validate p) with (Provisioner_validate p).
  assert (Hiff : fst (Provisioner_validate p) = true <-> validProvisioner p)
    by apply Provisioner_validate_true.
  split; [| split; [exact Hiff | split]].
  - rewrite <- Hiff. rewrite Provisioner_validate_errs, valid_errs. cbn [fst].
    destruct (_ ++ _)%list; split; try reflexivity; discriminate.
  - intros Hp. rewrite Provisioner_validate_errs, valid_errs, Hp. reflexivity.
  - intros Haws Hnone. rewrite Provisioner_validate_errs, valid_errs.
    unfold missing. rewrite Haws, Hnone. reflexivity.
Qed.

Lemma validate_true (r : ClusterRequest O) :
  fst (ClusterRequest_validate r) = true ->
  r.(ClusterRequest.Name) <> ""
  /\ r.(ClusterRequest.DesiredState) = "installed"
  /\ validCounts r
  /\ validProvisioner r.(ClusterRequest.Provisioner).
Proof.
  intros Hok.
  assert (Hrule : forall ru : rule O,
             In ru createRules -> rule.violated ru r = false).
  { intros ru Hin. destruct (rule.violated ru r) eqn:Hv; [| reflexivity].
    destruct (violation_reported r ru Hin Hv) as [Hfalse _]. congruence. }
  assert (Hname : rule.violated nameGiven r = false) by (apply Hrule; cbn; auto 20).
  assert (Hsg : rule.violated stateGiven r = false) by (apply Hrule; cbn; auto 20).
  assert (Hsa : rule.violated stateAllowed r = false) by (apply Hrule; cbn; auto 20).
  assert (He : rule.violated etcdPositive r = false) by (apply Hrule; cbn; auto 20).
  assert (Hm : rule.violated masterPositive r = false) by (apply Hrule; cbn; auto 20).
  assert (Hw : rule.violated workerPositive r = false) by (apply Hrule; cbn; auto 20).
  assert (Hi : rule.violated ingressNotNegative r = false) by (apply Hrule; cbn; auto 20).
  assert (Hpg : rule.violated providerGiven r = false) by (apply Hrule; cbn; auto 20).
  assert (Hpk : rule.violated providerKnown r = false) by (apply Hrule; cbn; auto 20).
  assert (Hak : rule.violated accessKeyGiven r = false) by (apply Hrule; cbn; auto 20).
  assert (Hsk : rule.violated secretKeyGiven r = false) by (apply Hrule; cbn; auto 20).
  cbn [rule.violated nameGiven stateGiven stateAllowed etcdPositive masterPositive
       workerPositive ingressNotNegative providerGiven providerKnown accessKeyGiven
       secretKeyGiven] in *.
  rewrite Hsg in Hsa. rewrite Hpg in Hpk. cbn [negb andb] in Hsa, Hpk.
  apply negb_false_iff, Contains_In in Hsa, Hpk.
  destruct Hsa as [Hsa | []]. destruct Hpk as [Hpk | []].
  rewrite <- Hpk in Hak, Hsk. cbn [String.eqb Ascii.eqb Bool.eqb andb] in Hak, Hsk.
  unfold missing in Hak, Hsk.
  apply String.eqb_neq in Hname. apply negb_false_iff in He, Hm, Hw, Hi.
  apply Z.ltb_lt in He, Hm, Hw. apply Z.leb_le in Hi.
  split; [assumption |]. split; [congruence |].
  split; [repeat split; assumption |].
  split; [congruence |].
  destruct (Provisioner.AWSOptions _) as [o|]; [| discriminate].
  exists o. apply String.eqb_neq in Hak, Hsk. repeat split; assumption.
Qed.

(** A create request passes validation exactly when its name is given, its
  desired state is "installed", its etcd, master and worker counts are
  positive, its ingress count is not negative, and its provisioner is valid;
  and when it passes it carries no error. *)
Theorem validate_passes_exactly (r : ClusterRequest O) :
  (fst (validate r) = true
   <-> r.(ClusterRequest.Name) <> ""
       /\ r.(ClusterRequest.DesiredState) = "installed"
       /\ validCounts r
       /\ validProvisioner r.(ClusterRequest.Provisioner))
  /\ (fst (validate r) = true <-> snd (validate r) = []).
Proof.
  change (validate r) with (ClusterRequest_validate r). split.
  - split.
    + apply validate_true.
    + intros (Hname & Hstate & Hcounts & Hprov).
      now rewrite (validate_passes r Hname Hstate Hcounts Hprov).
  - rewrite validate_eq_violations. cbn [fst snd].
    destruct (violations r); split; try reflexivity; discriminate.
Qed.

End ValidationExactly.

(** * Properties of the validator *)

Section Validator.
Context {A : Type} `{!validatable A}.

(** A validator is valid exactly when it holds no error, and the errors it
  returns are the ones it holds.  Validating an object adds the errors of the
  object when the object says it is not valid, and nothing otherwise; so an
  object that says it is not valid and names no error leaves the validator
  as valid as it was. *)
Theorem validator_counts_errors_only (v : validator) (obj : A) :
  (fst (validator.valid v) = true <-> validator.errs v = [])
  /\ snd (validator.valid v) = validator.errs v
  /\ validator.errs (validator.validate v obj)
     = (validator.errs v
        ++ (if fst (validate obj) then [] else snd (validate obj)))%list
  /\ (fst (validate obj) = false -> snd (validate obj) = [] ->
      validator.valid (validator.validate v obj) = validator.valid v).
Proof.
  destruct v as [l]. cbn [validator.errs].
  split; [rewrite valid_errs; destruct l; split; try reflexivity; discriminate |].
  split; [now rewrite valid_errs |].
  unfold validator.validate, validator.addError.
  destruct (validate obj) as [ok errs]. cbn [fst snd].
  destruct ok; cbn [negb validator.errs].
  - split; [now rewrite app_nil_r | discriminate].
  - split; [reflexivity |]. intros _ ->. now rewrite app_nil_r.
Qed.

End Validator.

(** * Further properties of the handlers *)

Section MoreHandlerFacts.
Context {O S : Type} {Store : store.ClusterStore O S} {Templates : install.Planner O}.

(** [Create] answers 409 to a valid request whose name has a record. *)
Lemma Create_Conflict (cs : S) (req : ClusterRequest O) (c : store.Cluster O) :
  fst (validate req) = true ->
  store.Get cs req.(ClusterRequest.Name) = Ok (Some c) ->
  Create cs (Ok req) = (cs, WriteHeader http.StatusConflict).
Proof.
  intros Hvalid Hget. unfold Create, existsInStore.
  destruct (validate req) as [valid errs]. cbn [fst] in Hvalid. subst valid.
  cbn [negb]. now rewrite Hget.
Qed.

(** [Delete] answers 202 only when the name had a record and [Put] took the
  record marked as destroyed. *)
Lemma Delete_Accepted (cs cs' : S) (id : string) (resp : Response O) :
  Delete cs id = (cs', resp) ->
  resp.(Response.Code) = http.StatusAccepted ->
  exists c : store.Cluster O,
    store.Get cs id = Ok (Some c)
    /\ store.Put cs id
         (store.Cluster.with_CanContinue
            (store.Cluster.with_DesiredState c "destroyed") true)
       = (cs', None).
Proof.
  unfold Delete, getFromStore, putToStore.
  destruct (store.Get cs id) as [[c|]|err];
    try (intros [= <- <-]; discriminate).
  - destruct (store.Put cs id _) as [cs1 [err|]] eqn:Hput;
      intros [= <- <-]; [discriminate |].
    intros _. exists c. split; [reflexivity | exact Hput].
Qed.

Lemma map_fmap {A B} (f : A -> B) (l : list A) : map f l = f <$> l.
Proof. induction l as [|x l IH]; cbn; [reflexivity | now rewrite IH]. Qed.

End MoreHandlerFacts.

Section MoreHandlers.
Context {O S : Type} {Store : store.ClusterStore O S} {Templates : install.Planner O}.

(** A request that fails validation is answered 400 with the message of every
  violated rule, in the order of the rules and at least one, whatever the
  store holds and whether it works or not; the store is not touched. *)
Theorem Create_answers_the_violations (cs : S) (req : ClusterRequest O) :
  fst (validate req) = false ->
  Create cs (Ok req)
  = (cs, {| Response.Code := http.StatusBadRequest;
            Response.Body :=
              Strings (map (fun ru => rule.message ru req)
                         (List.filter (fun ru => rule.violated ru req) createRules)) |})
  /\ List.filter (fun ru => rule.violated ru req) createRules <> [].
Proof.
  unfold Create. change (validate req) with (ClusterRequest_validate req).
  rewrite validate_eq_violations. unfold violations, formatErrs.
  destruct (List.filter (fun ru => rule.violated ru req) createRules) as [|ru rus]; cbn [fst map]; [discriminate |].
  intros _. cbn [negb]. split; [| discriminate].
  rewrite map_map. reflexivity.
Qed.

(** The keys of a request reach the credentials of the record built and
  nothing else: with other keys the record has the same plan, states and
  gate, and the same response is built for it; and building fails with the
  same error. *)
Theorem buildStoreCluster_keeps_keys_apart (req : ClusterRequest O)
  (access secret name : string) :
  match buildStoreCluster req,
        buildStoreCluster
          (withProvisioner req (withKeys req.(ClusterRequest.Provisioner) access secret))
  with
  | Ok sc, Ok sc' =>
      sc'.(store.Cluster.Plan) = sc.(store.Cluster.Plan)
      /\ sc'.(store.Cluster.DesiredState) = sc.(store.Cluster.DesiredState)
      /\ sc'.(store.Cluster.CurrentState) = sc.(store.Cluster.CurrentState)
      /\ sc'.(store.Cluster.CanContinue) = sc.(store.Cluster.CanContinue)
      /\ buildResponse name sc' = buildResponse name sc
  | Err err, Err err' => err' = err
  | _, _ => False
  end.
Proof.
  unfold buildStoreCluster, withProvisioner, withKeys.
  cbn [ClusterRequest.EtcdCount ClusterRequest.MasterCount ClusterRequest.WorkerCount
       ClusterRequest.IngressCount ClusterRequest.Provisioner ClusterRequest.Name
       ClusterRequest.DesiredState Provisioner.Provider Provisioner.AWSOptions].
  destruct (install.WritePlanTemplate _ _) as [planner [err|]]; [reflexivity |].
  destruct (install.Read planner) as [p|err]; [| reflexivity].
  destruct (Provisioner.AWSOptions (ClusterRequest.Provisioner req)) as [o|];
    cbn; destruct (String.eqb _ "aws"); cbn; repeat split; reflexivity.
Qed.

(** [Get] and [Delete] answer 404 exactly when the store reports no record
  and no error; an error of the store makes both answer 500, also when the
  error handed over is the one that stands for "not found". *)
Theorem not_found_is_no_store_error (cs : S) (id : string) :
  ((snd (Get cs id)).(Response.Code) = http.StatusNotFound
   <-> store.Get cs id = Ok None)
  /\ ((snd (Delete cs id)).(Response.Code) = http.StatusNotFound
      <-> store.Get cs id = Ok None)
  /\ (forall err : error,
        store.Get cs id = Err err ->
        Get cs id = (cs, WriteHeader http.StatusInternalServerError)
        /\ Delete cs id = (cs, WriteHeader http.StatusInternalServerError))
  /\ (forall c : store.Cluster O,
        store.Get cs id = Ok (Some c) ->
        Get cs id
        = (cs, {| Response.Code := http.StatusOK;
                  Response.Body := OneCluster (buildResponse id c) |})).
Proof.
  unfold Get, Delete, getFromStore, putToStore.
  destruct (store.Get cs id) as [[c|]|err].
  - split; [split; discriminate |].
    split; [destruct (store.Put cs id _) as [cs1 [err|]]; split; discriminate |].
    split; [intros err; discriminate |].
    intros c' [= <-]. reflexivity.
  - split; [split; reflexivity |]. split; [split; reflexivity |].
    split; intros ?; discriminate.
  - split; [destruct err; split; discriminate |].
    split; [destruct err; split; discriminate |].
    split; [| intros c; discriminate].
    intros err' _. destruct err; split; reflexivity.
Qed.

(** [GetAll] answers with one response per record of the store: the response
  built for each name and its record, no name twice, and as many responses
  as the store has records. *)
Theorem GetAll_lists_every_record (cs : S) (m : gmap string (store.Cluster O)) :
  store.GetAll cs = Ok (Some m) ->
  exists rs : list (ClusterResponse O),
    GetAll cs = (cs, {| Response.Code := http.StatusOK; Response.Body := Clusters rs |})
    /\ (forall r : ClusterResponse O,
          In r rs
          <-> exists (key : string) (sc : store.Cluster O),
                m !! key = Some sc /\ r = buildResponse key sc)
    /\ List.NoDup (map ClusterResponse.Name rs)
    /\ length rs = size m.
Proof.
  intros Hall. unfold GetAll, getAllFromStore. rewrite Hall. cbn [from_option id].
  eexists. split; [reflexivity |]. split; [| split].
  - intros r. rewrite in_map_iff. split.
    + intros ([key sc] & <- & Hin). exists key, sc. split; [| reflexivity].
      apply elem_of_map_to_list. now apply list_elem_of_In.
    + intros (key & sc & Hlookup & ->). exists (key, sc). split; [reflexivity |].
      apply list_elem_of_In. now apply elem_of_map_to_list.
  - rewrite map_map.
    rewrite (map_ext _ fst) by (intros [key sc]; reflexivity).
    apply NoDup_ListNoDup. rewrite map_fmap. apply NoDup_fst_map_to_list.
  - rewrite length_map. apply length_map_to_list.
Qed.

Context `{!store.ClusterStoreLaws O S}.

(** The cluster address of a create request is dropped: [Create] does the
  same to the store and gives the same answer for any other address, and
  after a [Create] that answered 202 the address [Get] gives is the
  load-balanced name of the plan read from the template, not the address of
  the request. *)
Theorem Create_ignores_ClusterIP (cs : S) (req : ClusterRequest O) (ip : string) :
  Create cs (Ok (withClusterIP req ip)) = Create cs (Ok req)
  /\ (forall (cs' : S) (resp : Response O),
        Create cs (Ok (withClusterIP req ip)) = (cs', resp) ->
        resp.(Response.Code) = http.StatusAccepted ->
        exists (planner : install.BytesPlanner) (p : install.Plan O)
               (r : ClusterResponse O),
          install.WritePlanTemplate
            {| install.PlanTemplateOptions.EtcdNodes := req.(ClusterRequest.EtcdCount);
               install.PlanTemplateOptions.MasterNodes := req.(ClusterRequest.MasterCount);
               install.PlanTemplateOptions.WorkerNodes := req.(ClusterRequest.WorkerCount);
               install.PlanTemplateOptions.IngressNodes := req.(ClusterRequest.IngressCount) |}
            install.BytesPlanner_zero = (planner, None)
          /\ install.Read planner = Ok p
          /\ Get cs' req.(ClusterRequest.Name)
             = (cs', {| Response.Code := http.StatusOK; Response.Body := OneCluster r |})
          /\ r.(ClusterResponse.ClusterIP)
             = p.(install.Plan.Master).(install.MasterNodeGroup.LoadBalancedFQDN)).
Proof.
  split; [reflexivity |].
  intros cs' resp Hcreate Hcode.
  change (Create cs (Ok (withClusterIP req ip))) with (Create cs (Ok req)) in Hcreate.
  destruct (Create_Accepted _ _ _ _ Hcreate Hcode)
    as (req0 & sc & [= <-] & _ & _ & Hbuild & Hput).
  apply store.Get_Put in Hput.
  destruct (buildStoreCluster_Ok _ _ Hbuild)
    as (planner & p & Hwrite & Hread & _ & _ & _ & _ & Hm & _).
  exists planner, p, (buildResponse req.(ClusterRequest.Name) sc).
  split; [assumption |]. split; [assumption |].
  split; [unfold Get, getFromStore; now rewrite Hput |].
  unfold buildResponse; cbn. now rewrite Hm.
Qed.

(** A name stays taken: after a [Create] that answered 202, a [Create] of any
  valid request with the same name answers 409 and leaves the store as it
  is. *)
Theorem Create_twice_conflicts (cs cs' : S) (req req' : ClusterRequest O)
  (resp : Response O) :
  Create cs (Ok req) = (cs', resp) ->
  resp.(Response.Code) = http.StatusAccepted ->
  fst (validate req') = true ->
  req'.(ClusterRequest.Name) = req.(ClusterRequest.Name) ->
  Create cs' (Ok req') = (cs', WriteHeader http.StatusConflict).
Proof.
  intros Hcreate Hcode Hvalid Hname.
  destruct (Create_Accepted _ _ _ _ Hcreate Hcode)
    as (req0 & sc & [= <-] & _ & _ & _ & Hput).
  apply store.Get_Put in Hput.
  apply (Create_Conflict cs' req' sc Hvalid). now rewrite Hname.
Qed.

(** A name stays taken after its cluster was deleted through the API: a
  [Create] of a valid request with that name answers 409. *)
Theorem Delete_then_Create_conflicts (cs cs' : S) (id : string)
  (req : ClusterRequest O) (resp : Response O) :
  Delete cs id = (cs', resp) ->
  resp.(Response.Code) = http.StatusAccepted ->
  fst (validate req) = true ->
  req.(ClusterRequest.Name) = id ->
  Create cs' (Ok req) = (cs', WriteHeader http.StatusConflict).
Proof.
  intros Hdelete Hcode Hvalid Hname.
  destruct (Delete_Accepted _ _ _ _ Hdelete Hcode) as (c & _ & Hput).
  apply store.Get_Put in Hput.
  eapply (Create_Conflict cs' req _ Hvalid). rewrite Hname. exact Hput.
Qed.

(** After a [Delete] that answered 202, [Get] of the name answers 200 with
  the desired state "destroyed"; the name, current state, address, counts and
  provisioner of the response are those [Get] gave before. *)
Theorem Delete_then_Get (cs cs' : S) (id : string) (resp : Response O) :
  Delete cs id = (cs', resp) ->
  resp.(Response.Code) = http.StatusAccepted ->
  exists r r' : ClusterResponse O,
    Get cs id
    = (cs, {| Response.Code := http.StatusOK; Response.Body := OneCluster r |})
    /\ Get cs' id
       = (cs', {| Response.Code := http.StatusOK; Response.Body := OneCluster r' |})
    /\ r'.(ClusterResponse.DesiredState) = "destroyed"
    /\ r'.(ClusterResponse.Name) = r.(ClusterResponse.Name)
    /\ r'.(ClusterResponse.CurrentState) = r.(ClusterResponse.CurrentState)
    /\ r'.(ClusterResponse.ClusterIP) = r.(ClusterResponse.ClusterIP)
    /\ r'.(ClusterResponse.EtcdCount) = r.(ClusterResponse.EtcdCount)
    /\ r'.(ClusterResponse.MasterCount) = r.(ClusterResponse.MasterCount)
    /\ r'.(ClusterResponse.WorkerCount) = r.(ClusterResponse.WorkerCount)
    /\ r'.(ClusterResponse.IngressCount) = r.(ClusterResponse.IngressCount)
    /\ r'.(ClusterResponse.Provisioner) = r.(ClusterResponse.Provisioner).
Proof.
  intros Hdelete Hcode.
  destruct (Delete_Accepted _ _ _ _ Hdelete Hcode) as (c & Hget & Hput).
  apply store.Get_Put in Hput.
  eexists _, _. unfold Get, getFromStore. rewrite Hget, Hput.
  split; [reflexivity |]. split; [reflexivity |]. repeat split; reflexivity.
Qed.

(** Deleting twice is deleting once: after two [Delete]s of a name that both
  answered 202, the record of the name is the one the first left. *)
Theorem Delete_twice (cs cs1 cs2 : S) (id : string) (resp1 resp2 : Response O) :
  Delete cs id = (cs1, resp1) ->
  resp1.(Response.Code) = http.StatusAccepted ->
  Delete cs1 id = (cs2, resp2) ->
  resp2.(Response.Code) = http.StatusAccepted ->
  store.Get cs2 id = store.Get cs1 id
  /\ exists c, store.Get cs1 id = Ok (Some c).
Proof.
  intros Hd1 Hc1 Hd2 Hc2.
  destruct (Delete_Accepted _ _ _ _ Hd1 Hc1) as (c & _ & Hput1).
  destruct (Delete_Accepted _ _ _ _ Hd2 Hc2) as (c' & Hget1 & Hput2).
  apply store.Get_Put in Hput1, Hput2.
  rewrite Hput1 in Hget1. injection Hget1 as <-.
  rewrite Hput1, Hput2. split; [reflexivity | eauto].
Qed.

(** After a [Create] that answered 202 the record of the name holds what the
  request asked for: its desired state "installed", its name, the provider
  "aws" with the options of the request less the keys in its plan, and the
  two keys of the request as its credentials. *)
Theorem Create_stores_the_request (cs cs' : S) (req : ClusterRequest O)
  (resp : Response O) :
  Create cs (Ok req) = (cs', resp) ->
  resp.(Response.Code) = http.StatusAccepted ->
  exists (sc : store.Cluster O) (o : AWSProvisionerOptions O),
    store.Get cs' req.(ClusterRequest.Name) = Ok (Some sc)
    /\ req.(ClusterRequest.Provisioner).(Provisioner.AWSOptions) = Some o
    /\ sc.(store.Cluster.DesiredState) = "installed"
    /\ sc.(store.Cluster.Plan).(install.Plan.Cluster).(install.Cluster.Name)
       = req.(ClusterRequest.Name)
    /\ sc.(store.Cluster.Plan).(install.Plan.Provisioner)
       = {| install.Provisioner.Provider := "aws";
            install.Provisioner.AWSOptions :=
              Some o.(AWSProvisionerOptions.AWSProvisionerOptions) |}
    /\ sc.(store.Cluster.ProvisionerCredentials)
       = {| store.ProvisionerCredentials.AWS :=
              {| store.AWSCredentials.AccessKeyId :=
                   o.(AWSProvisionerOptions.AccessKeyID);
                 store.AWSCredentials.SecretAccessKey :=
                   o.(AWSProvisionerOptions.SecretAccessKey) |} |}.
Proof.
  intros Hcreate Hcode.
  destruct (Create_Accepted _ _ _ _ Hcreate Hcode)
    as (req0 & sc & [= <-] & Hvalid & _ & Hbuild & Hput).
  apply store.Get_Put in Hput.
  destruct (validate_true req Hvalid) as (_ & Hstate & _ & Haws & o & Ho & _).
  exists sc, o. split; [assumption |]. split; [assumption |].
  revert Hbuild. unfold buildStoreCluster.
  destruct (install.WritePlanTemplate _ _) as [planner [err|]]; [discriminate |].
  destruct (install.Read planner) as [p|err]; [| discriminate].
  rewrite Ho, Haws, Hstate. intros [= <-]. cbn. repeat split; reflexivity.
Qed.

(** After a [Create] that answered 202, [Get] of the name answers 200 and
  gives the request back: its name, its desired state, the current state
  "planned", and its provisioner with both keys blank. *)
Theorem Create_then_Get_gives_the_request_back (cs cs' : S)
  (req : ClusterRequest O) (resp : Response O) :
  Create cs (Ok req) = (cs', resp) ->
  resp.(Response.Code) = http.StatusAccepted ->
  exists r : ClusterResponse O,
    Get cs' req.(ClusterRequest.Name)
    = (cs', {| Response.Code := http.StatusOK; Response.Body := OneCluster r |})
    /\ r.(ClusterResponse.Name) = req.(ClusterRequest.Name)
    /\ r.(ClusterResponse.DesiredState) = req.(ClusterRequest.DesiredState)
    /\ r.(ClusterResponse.CurrentState) = "planned"
    /\ r.(ClusterResponse.Provisioner)
       = withKeys req.(ClusterRequest.Provisioner) "" "".
Proof.
  intros Hcreate Hcode.
  destruct (Create_Accepted _ _ _ _ Hcreate Hcode)
    as (req0 & sc & [= <-] & Hvalid & _ & Hbuild & Hput).
  apply store.Get_Put in Hput.
  destruct (validate_true req Hvalid) as (_ & _ & _ & Haws & o & Ho & _).
  eexists. unfold Get, getFromStore. rewrite Hput. split; [reflexivity |].
  revert Hbuild. unfold buildStoreCluster, withKeys.
  destruct (install.WritePlanTemplate _ _) as [planner [err|]]; [discriminate |].
  destruct (install.Read planner) as [p|err]; [| discriminate].
  rewrite Ho, Haws. intros [= <-]. cbn.
  repeat split; reflexivity.
Qed.

End MoreHandlers.

(** * Properties of the store of the tests *)

Section MockStore.
Context {O : Type}.

(** In the store of the tests a record put under a key is read back under
  that key, by [Get] and in the map of [GetAll], which is not nil from then
  on; the records under other keys stay as they were; and [Put] reports no
  error. *)
Theorem mockClustersStore_Put_then_Get (cs : mockClustersStore O) (key : string)
  (c : store.Cluster O) :
  snd (mockClustersStore.Put cs key c) = None
  /\ mockClustersStore.Get (fst (mockClustersStore.Put cs key c)) key = Ok (Some c)
  /\ (forall k : string,
        k <> key ->
        mockClustersStore.Get (fst (mockClustersStore.Put cs key c)) k
        = mockClustersStore.Get cs k)
  /\ exists m : gmap string (store.Cluster O),
       mockClustersStore.GetAll (fst (mockClustersStore.Put cs key c)) = Ok (Some m)
       /\ m !! key = Some c
       /\ forall k : string,
            k <> key -> mockClustersStore.Get cs k = Ok (m !! k).
Proof.
  destruct cs as [[m|]]; cbn.
  - split; [reflexivity |]. split; [now rewrite lookup_insert_eq |].
    split; [intros k Hk; now rewrite lookup_insert_ne |].
    eexists. split; [reflexivity |]. split; [apply lookup_insert_eq |].
    intros k Hk. now rewrite lookup_insert_ne.
  - split; [reflexivity |]. split; [now rewrite lookup_insert_eq |].
    split; [intros k Hk; now rewrite lookup_insert_ne, lookup_empty |].
    eexists. split; [reflexivity |]. split; [apply lookup_insert_eq |].
    intros k Hk. now rewrite lookup_insert_ne, lookup_empty.
Qed.

(** In the store of the tests [Delete] removes the record of the key and no
  other; it reports no error, also for a key that has no record and on the
  store that was never written, which it leaves as it is. *)
Theorem mockClustersStore_Delete_then_Get (cs : mockClustersStore O) (key : string) :
  snd (mockClustersStore.Delete cs key) = None
  /\ mockClustersStore.Get (fst (mockClustersStore.Delete cs key)) key = Ok None
  /\ (forall k : string,
        k <> key ->
        mockClustersStore.Get (fst (mockClustersStore.Delete cs key)) k
        = mockClustersStore.Get cs k)
  /\ (mockClustersStore.Get cs key = Ok None ->
      fst (mockClustersStore.Delete cs key) = cs).
Proof.
  destruct cs as [[m|]]; cbn.
  - split; [reflexivity |]. split; [now rewrite lookup_delete_eq |].
    split; [intros k Hk; now rewrite lookup_delete_ne |].
    intros [= Hnone]. now rewrite delete_id.
  - repeat split; reflexivity.
Qed.

End MockStore.

(** * Properties of the handlers that serve files *)

Section FileHandlerFacts.
Context {O S : Type} {Store : store.ClusterStore O S}.

Lemma existsInStore_true (cs : S) (id : string) :
  existsInStore id cs = Ok true <-> exists c, store.Get cs id = Ok (Some c).
Proof.
  unfold existsInStore. destruct (store.Get cs id) as [[c|]|err]; split;
    try discriminate; eauto; intros [c' [=]].
Qed.

Lemma existsInStore_false (cs : S) (id : string) :
  existsInStore id cs = Ok false <-> store.Get cs id = Ok None.
Proof.
  unfold existsInStore. destruct (store.Get cs id) as [[c|]|err]; split;
    try discriminate; reflexivity.
Qed.

End FileHandlerFacts.

Section FileHandlers.
Context {O S F : Type} {Store : store.ClusterStore O S} {Files : os.FileSystem F}.

(** The three handlers serve files for the names of the store only.  For a
  name with no record each answers 404 whatever the files are; and when one
  serves a file, the name has a record and the file is the one of that name:
  its kubeconfig or its log, found to be no directory, or the archive made
  of its assets directory. *)
Theorem files_are_served_for_stored_names_only (AssetsDir : string) (cs : S)
  (fs : F) (id : string) :
  (store.Get cs id = Ok None ->
   GetKubeconfig AssetsDir cs fs id = Header http.StatusNotFound
   /\ GetLogs AssetsDir cs fs id = Header http.StatusNotFound
   /\ GetAssets AssetsDir cs fs id = (fs, Header http.StatusNotFound))
  /\ (forall (d : option string) (name : string),
        GetKubeconfig AssetsDir cs fs id = ServeFile d name ->
        (exists c, store.Get cs id = Ok (Some c))
        /\ name = os.Join [AssetsDir; id; "assets"; "kubeconfig"]
        /\ os.Stat fs name = os.FileInfo false
        /\ d = Some "attachment; filename=config")
  /\ (forall (d : option string) (name : string),
        GetLogs AssetsDir cs fs id = ServeFile d name ->
        (exists c, store.Get cs id = Ok (Some c))
        /\ name = os.Join [AssetsDir; id; "kismatic.log"]
        /\ os.Stat fs name = os.FileInfo false
        /\ d = None)
  /\ (forall (d : option string) (name : string),
        snd (GetAssets AssetsDir cs fs id) = ServeFile d name ->
        (exists c, store.Get cs id = Ok (Some c))
        /\ os.Stat fs (os.Join [AssetsDir; id; "assets"]) = os.FileInfo true
        /\ (exists fs1, os.TempFile fs "/tmp" id = (fs1, Ok name))
        /\ d = Some ("attachment; filename=" +:+ id +:+ "-assets.tar.gz")).
Proof.
  unfold GetKubeconfig, GetLogs, GetAssets.
  split; [| split; [| split]].
  - intros Hnone. apply existsInStore_false in Hnone. rewrite Hnone.
    repeat split; reflexivity.
  - intros d name.
    destruct (existsInStore id cs) as [[|]|err] eqn:Hex; try discriminate.
    apply existsInStore_true in Hex.
    destruct (os.Stat fs _) as [[|]| |] eqn:Hstat; try discriminate.
    intros [= <- <-]. repeat split; assumption.
  - intros d name.
    destruct (existsInStore id cs) as [[|]|err] eqn:Hex; try discriminate.
    apply existsInStore_true in Hex.
    destruct (os.Stat fs _) as [[|]| |] eqn:Hstat; try discriminate.
    intros [= <- <-]. repeat split; assumption.
  - intros d name.
    destruct (existsInStore id cs) as [[|]|err] eqn:Hex; try discriminate.
    apply existsInStore_true in Hex.
    destruct (os.Stat fs _) as [[|]| |] eqn:Hstat; try discriminate.
    destruct (os.TempFile fs "/tmp" id) as [fs1 [tmpf|err]] eqn:Htmp;
      try discriminate.
    destruct (os.TarGz_Make fs1 tmpf _) as [fs2 [err|]]; try discriminate.
    cbn [snd]. intros [= <- <-]. repeat split; eauto.
Qed.

(** For a name that has a record, each of the three handlers panics when
  [os.Stat] fails with an error other than that of a missing file, and
  [GetAssets] panics when its temporary file cannot be made: none of them
  answers 500 then. *)
Theorem file_handlers_panic_on_other_errors (AssetsDir : string) (cs : S)
  (fs : F) (id : string) (c : store.Cluster O) :
  store.Get cs id = Ok (Some c) ->
  (os.Stat fs (os.Join [AssetsDir; id; "assets"; "kubeconfig"]) = os.ErrOther ->
   GetKubeconfig AssetsDir cs fs id = Panic)
  /\ (os.Stat fs (os.Join [AssetsDir; id; "kismatic.log"]) = os.ErrOther ->
      GetLogs AssetsDir cs fs id = Panic)
  /\ (os.Stat fs (os.Join [AssetsDir; id; "assets"]) = os.ErrOther ->
      GetAssets AssetsDir cs fs id = (fs, Panic))
  /\ (forall (fs1 : F) (err : error),
        os.Stat fs (os.Join [AssetsDir; id; "assets"]) = os.FileInfo true ->
        os.TempFile fs "/tmp" id = (fs1, Err err) ->
        GetAssets AssetsDir cs fs id = (fs1, Panic)).
Proof.
  intros Hget.
  assert (Hex : existsInStore id cs = Ok true) by (apply existsInStore_true; eauto).
  unfold GetKubeconfig, GetLogs, GetAssets. rewrite Hex.
  split; [| split; [| split]].
  - intros ->. reflexivity.
  - intros ->. reflexivity.
  - intros ->. reflexivity.
  - intros fs1 err -> ->. reflexivity.
Qed.

(** [GetAssets] removes the temporary file it made: once the file is made,
  the handler leaves the file system as [os.Remove] of that file leaves it
  after the archive was written, whether archiving failed, which it answers
  with 500, or the archive was served. *)
Theorem GetAssets_removes_its_temporary_file (AssetsDir : string) (cs : S)
  (fs fs1 : F) (id tmpf : string) (c : store.Cluster O) :
  store.Get cs id = Ok (Some c) ->
  os.Stat fs (os.Join [AssetsDir; id; "assets"]) = os.FileInfo true ->
  os.TempFile fs "/tmp" id = (fs1, Ok tmpf) ->
  fst (GetAssets AssetsDir cs fs id)
  = os.Remove
      (fst (os.TarGz_Make fs1 tmpf [os.Join [AssetsDir; id; "assets"]])) tmpf
  /\ snd (GetAssets AssetsDir cs fs id)
     = match snd (os.TarGz_Make fs1 tmpf [os.Join [AssetsDir; id; "assets"]]) with
       | Some err => Header http.StatusInternalServerError
       | None =>
           ServeFile (Some ("attachment; filename=" +:+ id +:+ "-assets.tar.gz")) tmpf
       end.
Proof.
  intros Hget Hstat Htmp.
  assert (Hex : existsInStore id cs = Ok true) by (apply existsInStore_true; eauto).
  unfold GetAssets. rewrite Hex, Hstat, Htmp.
  destruct (os.TarGz_Make fs1 tmpf _) as [fs2 [err|]]; split; reflexivity.
Qed.

End FileHandlers.

(** * The handlers on the store and the requests of the tests *)

#[local] Existing Instance install.templatePlanner.

(** The store of the tests keeps what is put, and its [Put] never fails. *)
Lemma mockClustersStore_laws (O : Type) :
  store.ClusterStoreLaws O (mockClustersStore O).
Proof.
  split.
  - intros [m] cs' key c [= <-]. cbn.
    destruct m as [m|]; cbn; now rewrite lookup_insert_eq.
  - intros cs cs' key c err [=].
Qed.

#[local] Existing Instance mockClustersStore_laws.

(** The planner modelled expands a template into a plan of its sizes. *)
Lemma templatePlanner_expands (O : Type) :
  @install.PlannerExpands O (install.templatePlanner O).
Proof.
  intros t planner p [= <-] [= <-]. cbn. repeat split; reflexivity.
Qed.

#[local] Existing Instance templatePlanner_expands.

(** The rows of [TestValidationShouldError]: [Create] answers 400 to each of
  them on an empty store, and 202 to the request of [TestValidation]. *)
Lemma TestValidationShouldError :
  let code req :=
    Response.Code
      (snd (Create emptyStore (Ok req))) in
  let unknown :=
    {| Provisioner.Provider := "foobar";
       Provisioner.AWSOptions := Provisioner.AWSOptions testProvisioner |} in
  let keys access secret :=
    {| Provisioner.Provider := "aws";
       Provisioner.AWSOptions :=
         Some {| AWSProvisionerOptions.AWSProvisionerOptions := tt;
                 AWSProvisionerOptions.AccessKeyID := access;
                 AWSProvisionerOptions.SecretAccessKey := secret |} |} in
  map code
    [ testRequest "" "installed" 3 2 5 2 testProvisioner;
      testRequest "foo" "bar" 3 2 5 2 testProvisioner;
      testRequest "foo" "installed" 3 2 5 2 unknown;
      testRequest "foo" "installed" 3 2 5 2 (keys "" "SECRET");
      testRequest "foo" "installed" 3 2 5 2 (keys "ACCESS_ID" "");
      testRequest "foo" "installed" 0 2 5 2 testProvisioner;
      testRequest "foo" "installed" 3 0 5 2 testProvisioner;
      testRequest "foo" "installed" 3 2 0 2 testProvisioner;
      testRequest "foo" "installed" 3 2 5 (-1) testProvisioner ]
  = repeat http.StatusBadRequest 9
  /\ code foo = http.StatusAccepted.
Proof. vm_compute. split; reflexivity. Qed.

(** The steps of [TestCreateUpdateGetGetAllandDelete] that this file has the
  handlers of: create "foo", get "bar" and "foo", get all, delete "foo", get
  all again. *)
Lemma TestCreateGetGetAllandDelete :
  let created := Create emptyStore (Ok foo) in
  let deleted := Delete (fst created) "foo" in
  let listed cs :=
    match Response.Body (snd (GetAll cs)) with
    | Clusters rs => map ClusterResponse.DesiredState rs
    | _ => []
    end in
  snd created
  = {| Response.Code := http.StatusAccepted; Response.Body := Text ("ok" +:+ newline) |}
  /\ Response.Code (snd (Get (fst created) "bar")) = http.StatusNotFound
  /\ Response.Code (snd (Get (fst created) "foo")) = http.StatusOK
  /\ listed (fst created) = ["installed"]
  /\ snd deleted
     = {| Response.Code := http.StatusAccepted; Response.Body := Text ("ok" +:+ newline) |}
  /\ listed (fst deleted) = ["destroyed"].
Proof. vm_compute. repeat split; reflexivity. Qed.

(** C1, as the specification states it, fails: a request that is valid but for
  its desired state "destroyed" is rejected. *)
Lemma validate_rejects_destroyed :
  ~ (forall r : ClusterRequest unit,
       In r.(ClusterRequest.DesiredState) ["installed"; "destroyed"] ->
       r.(ClusterRequest.Name) <> "" -> validCounts r ->
       validProvisioner r.(ClusterRequest.Provisioner) ->
       fst (validate r) = true).
Proof.
  intros H.
  specialize (H (testRequest "foo" "destroyed" 3 2 5 2 testProvisioner)).
  assert (Hfalse : false = true); [| discriminate Hfalse].
  apply H.
  - cbn. tauto.
  - discriminate.
  - unfold validCounts. cbn. lia.
  - split; [reflexivity |]. eexists. split; [reflexivity |].
    split; discriminate.
Qed.

Lemma validate_desiredState_witness :
  validate foo = (true, [])
  /\ fst (validate (testRequest "foo" "bar" 3 2 5 2 testProvisioner)) = false.
Proof.
  split.
  - apply (validate_desiredState foo).
    + reflexivity.
    + discriminate.
    + unfold validCounts. cbn. lia.
    + split; [reflexivity |]. eexists. split; [reflexivity |]. split; discriminate.
  - apply (validate_desiredState (testRequest "foo" "bar" 3 2 5 2 testProvisioner)).
    + discriminate.
    + discriminate.
Defined.

Lemma buildResponse_hides_credentials_witness :
  buildResponse "foo"
    (store.Cluster.with_ProvisionerCredentials (testInStore "foo" 3 2 5 2)
       {| store.ProvisionerCredentials.AWS :=
            {| store.AWSCredentials.AccessKeyId := "ACCESS_ID";
               store.AWSCredentials.SecretAccessKey := "SECRET" |} |})
  = buildResponse "foo" (testInStore "foo" 3 2 5 2).
Proof.
  exact (proj1 (proj2 (buildResponse_hides_credentials "foo" (testInStore "foo" 3 2 5 2))) _).
Defined.

Lemma clusterPatch_validate_identity_witness :
  validate {| clusterPatch.id := "foo";
              clusterPatch.request :=
                testRequest "foo" "installed" 3 3 6 3 testProvisioner;
              clusterPatch.inStore := testInStore "foo" 3 2 5 2 |}
  = (true, []).
Proof.
  apply clusterPatch_validate_identity; reflexivity.
Defined.

Lemma Delete_keeps_the_record_witness :
  store.Get fooStored "foo" = Ok (Some fooRecord)
  /\ exists c' : store.Cluster unit,
       c'.(store.Cluster.DesiredState) = "destroyed"
       /\ c'.(store.Cluster.CanContinue) = true
       /\ c'.(store.Cluster.CurrentState) = fooRecord.(store.Cluster.CurrentState)
       /\ c'.(store.Cluster.Plan) = fooRecord.(store.Cluster.Plan)
       /\ c'.(store.Cluster.ProvisionerCredentials)
          = fooRecord.(store.Cluster.ProvisionerCredentials)
       /\ store.Put fooStored "foo" c' = (fooDeleted, None)
       /\ Delete fooStored "foo"
          = (fooDeleted,
             {| Response.Code := http.StatusAccepted;
                Response.Body := Text ("ok" +:+ newline) |})
       /\ store.Get fooDeleted "foo" = Ok (Some c').
Proof.
  assert (Hget : store.Get fooStored "foo" = Ok (Some fooRecord))
    by (vm_compute; reflexivity).
  split; [exact Hget |].
  destruct (proj1 (Delete_keeps_the_record fooStored "foo") fooRecord Hget)
    as (c' & Hd & Hc & Hcur & Hplan & Hcreds & Hput & _).
  assert (Hc' : c' = store.Cluster.with_CanContinue
                       (store.Cluster.with_DesiredState fooRecord "destroyed") true).
  { destruct c' as [d cur plan can creds]. cbn in Hd, Hc, Hcur, Hplan, Hcreds.
    subst d cur plan can creds. reflexivity. }
  assert (Hstore : store.Put fooStored "foo" c' = (fooDeleted, None))
    by (rewrite Hc'; vm_compute; reflexivity).
  exists c'. do 5 (split; [assumption |]). split; [exact Hstore |].
  exact (Hput fooDeleted Hstore).
Defined.

(** On the store of the tests, whose [Put] never fails, [Delete] answers 202
  for every name that has a record and leaves that record marked. *)
Lemma Delete_on_the_store_of_the_tests (cs : mockClustersStore unit) (id : string)
  (c : store.Cluster unit) :
  store.Get cs id = Ok (Some c) ->
  snd (Delete cs id)
  = {| Response.Code := http.StatusAccepted; Response.Body := Text ("ok" +:+ newline) |}
  /\ store.Get (fst (Delete cs id)) id
     = Ok (Some (store.Cluster.with_CanContinue
                   (store.Cluster.with_DesiredState c "destroyed") true)).
Proof.
  intros Hget. unfold Delete, getFromStore, putToStore. rewrite Hget.
  destruct (store.Put cs id _) as [cs1 [err|]] eqn:Hput.
  - discriminate Hput.
  - split; [reflexivity |]. apply (store.Get_Put _ _ _ _ Hput).
Qed.

Lemma validate_collects_all_violations_witness :
  let r := testRequest "" "installed" 3 2 0 2
             {| Provisioner.Provider := "aws"; Provisioner.AWSOptions := None |} in
  snd (validate r)
  = [ Errorf "name cannot be empty";
      Errorf "cluster.workerCount must be greater than 0";
      Errorf "provisioner.options.accessKeyID cannot be empty";
      Errorf "provisioner.options.secretAccessKey cannot be empty" ].
Proof.
  cbv zeta.
  rewrite (proj1 (validate_collects_all_violations _)).
  vm_compute. reflexivity.
Defined.

Lemma validate_counts_witness :
  validate (testRequest "foo" "installed" 3 2 5 0 testProvisioner) = (true, [])
  /\ fst (validate (testRequest "foo" "installed" 3 2 5 (-1) testProvisioner)) = false.
Proof.
  split.
  - apply validate_counts; try reflexivity; try discriminate.
    split; [reflexivity |]. eexists. split; [reflexivity |]. split; discriminate.
  - apply (validate_counts (testRequest "foo" "installed" 3 2 5 (-1) testProvisioner)).
    reflexivity.
Defined.

Lemma Create_then_Get_witness :
  Create emptyStore (Ok foo)
  = (fooStored,
     {| Response.Code := http.StatusAccepted; Response.Body := Text ("ok" +:+ newline) |})
  /\ exists (sc : store.Cluster unit) (r : ClusterResponse unit),
       store.Get fooStored "foo" = Ok (Some sc)
       /\ sc.(store.Cluster.CurrentState) = "planned"
       /\ sc.(store.Cluster.CanContinue) = true
       /\ Get fooStored "foo"
          = (fooStored,
             {| Response.Code := http.StatusOK; Response.Body := OneCluster r |})
       /\ r.(ClusterResponse.Name) = "foo"
       /\ r.(ClusterResponse.CurrentState) = "planned"
       /\ r.(ClusterResponse.EtcdCount) = 3%Z
       /\ r.(ClusterResponse.MasterCount) = 2%Z
       /\ r.(ClusterResponse.WorkerCount) = 5%Z
       /\ r.(ClusterResponse.IngressCount) = 2%Z.
Proof.
  assert (H : Create emptyStore (Ok foo)
              = (fooStored,
                 {| Response.Code := http.StatusAccepted;
                    Response.Body := Text ("ok" +:+ newline) |}))
    by (vm_compute; reflexivity).
  split; [exact H |].
  apply (Create_then_Get emptyStore fooStored foo _ H). reflexivity.
Defined.

Lemma GetAll_of_an_empty_store_witness :
  getAllFromStore emptyStore = Ok (Some ∅)
  /\ GetAll emptyStore
     = (emptyStore,
        {| Response.Code := http.StatusOK; Response.Body := Clusters [] |}).
Proof.
  apply (GetAll_of_an_empty_store emptyStore). left. reflexivity.
Defined.

Lemma Provisioner_validate_unknown_provider_witness :
  validate {| Provisioner.Provider := "foobar";
              Provisioner.AWSOptions := @None (AWSProvisionerOptions unit) |}
  = (false,
     [Errorf "foobar is not a valid provisioner.provider, options are: [aws]"]).
Proof.
  apply (Provisioner_validate_unknown_provider
           {| Provisioner.Provider := "foobar";
              Provisioner.AWSOptions := @None (AWSProvisionerOptions unit) |}).
  - discriminate.
  - cbn. intros [H | []]. discriminate H.
Defined.

Lemma Create_is_atomic_witness :
  fst (Create fooStored (Ok foo)) = fooStored
  /\ fst (Create emptyStore (Ok (testRequest "" "installed" 3 2 5 2 testProvisioner)))
     = emptyStore
  /\ fst (Create emptyStore (Err (Errorf "unexpected EOF"))) = emptyStore.
Proof.
  split; [| split].
  - apply (Create_is_atomic fooStored (Ok foo)). vm_compute. discriminate.
  - apply (Create_is_atomic emptyStore
             (Ok (testRequest "" "installed" 3 2 5 2 testProvisioner))).
    vm_compute. discriminate.
  - apply (Create_is_atomic emptyStore (Err (Errorf "unexpected EOF"))).
    vm_compute. discriminate.
Defined.

(** * The further properties on the store, the requests and the files of the tests *)

(** The steps of [TestGetKubeconfig] and [TestGetLogs]: the file of "foo" is
  served, "bar" has no record, and "foobar" has a record and no file. *)
Lemma TestGetKubeconfig_TestGetLogs :
  map (GetKubeconfig (Files := testFiles) testAssetsDir testStore [])
    ["foo"; "bar"; "foobar"]
  = [ ServeFile (Some "attachment; filename=config")
        "/tmp/ket-server-assets/foo/assets/kubeconfig";
      Header http.StatusNotFound;
      Header http.StatusInternalServerError ]
  /\ map (GetLogs (Files := testFiles) testAssetsDir testStore [])
       ["foo"; "bar"; "foobar"]
     = [ ServeFile None "/tmp/ket-server-assets/foo/kismatic.log";
         Header http.StatusNotFound;
         Header http.StatusInternalServerError ].
Proof. vm_compute. split; reflexivity. Qed.

Lemma Create_answers_the_violations_witness :
  Create emptyStore (Ok (testRequest "" "destroyed" 3 2 0 2 testProvisioner))
  = (emptyStore,
     {| Response.Code := http.StatusBadRequest;
        Response.Body :=
          Strings [ "name cannot be empty";
                    "destroyed is not a valid desiredState, options are: [installed]";
                    "cluster.workerCount must be greater than 0" ] |}).
Proof.
  apply (Create_answers_the_violations emptyStore
           (testRequest "" "destroyed" 3 2 0 2 testProvisioner)).
  reflexivity.
Defined.

Lemma GetAll_lists_every_record_witness :
  store.GetAll fooStored = Ok (Some {[ "foo" := fooRecord ]})
  /\ exists rs : list (ClusterResponse unit),
       GetAll fooStored
       = (fooStored,
          {| Response.Code := http.StatusOK; Response.Body := Clusters rs |})
       /\ (forall r : ClusterResponse unit,
             In r rs
             <-> exists (key : string) (sc : store.Cluster unit),
                   ({[ "foo" := fooRecord ]} : gmap string (store.Cluster unit)) !! key
                   = Some sc
                   /\ r = buildResponse key sc)
       /\ List.NoDup (map ClusterResponse.Name rs)
       /\ length rs = size ({[ "foo" := fooRecord ]} : gmap string (store.Cluster unit)).
Proof.
  assert (H : store.GetAll fooStored = Ok (Some {[ "foo" := fooRecord ]}))
    by (vm_compute; reflexivity).
  split; [exact H |].
  apply (GetAll_lists_every_record fooStored _ H).
Defined.

Lemma Create_twice_conflicts_witness :
  Create emptyStore (Ok foo)
  = (fooStored,
     {| Response.Code := http.StatusAccepted; Response.Body := Text ("ok" +:+ newline) |})
  /\ Create fooStored (Ok (testRequest "foo" "installed" 1 1 1 0 testProvisioner))
     = (fooStored, WriteHeader http.StatusConflict).
Proof.
  assert (H : Create emptyStore (Ok foo)
              = (fooStored,
                 {| Response.Code := http.StatusAccepted;
                    Response.Body := Text ("ok" +:+ newline) |}))
    by (vm_compute; reflexivity).
  split; [exact H |].
  apply (Create_twice_conflicts emptyStore fooStored foo _ _ H); reflexivity.
Defined.

Lemma Delete_then_Create_conflicts_witness :
  Delete fooStored "foo"
  = (fooDeleted,
     {| Response.Code := http.StatusAccepted; Response.Body := Text ("ok" +:+ newline) |})
  /\ Create fooDeleted (Ok foo) = (fooDeleted, WriteHeader http.StatusConflict).
Proof.
  assert (H : Delete fooStored "foo"
              = (fooDeleted,
                 {| Response.Code := http.StatusAccepted;
                    Response.Body := Text ("ok" +:+ newline) |}))
    by (vm_compute; reflexivity).
  split; [exact H |].
  apply (Delete_then_Create_conflicts fooStored fooDeleted "foo" foo _ H); reflexivity.
Defined.

Lemma Delete_then_Get_witness :
  Delete fooStored "foo"
  = (fooDeleted,
     {| Response.Code := http.StatusAccepted; Response.Body := Text ("ok" +:+ newline) |})
  /\ exists r r' : ClusterResponse unit,
       Get fooStored "foo"
       = (fooStored,
          {| Response.Code := http.StatusOK; Response.Body := OneCluster r |})
       /\ Get fooDeleted "foo"
          = (fooDeleted,
             {| Response.Code := http.StatusOK; Response.Body := OneCluster r' |})
       /\ r'.(ClusterResponse.DesiredState) = "destroyed"
       /\ r'.(ClusterResponse.Name) = r.(ClusterResponse.Name)
       /\ r'.(ClusterResponse.CurrentState) = r.(ClusterResponse.CurrentState)
       /\ r'.(ClusterResponse.ClusterIP) = r.(ClusterResponse.ClusterIP)
       /\ r'.(ClusterResponse.EtcdCount) = r.(ClusterResponse.EtcdCount)
       /\ r'.(ClusterResponse.MasterCount) = r.(ClusterResponse.MasterCount)
       /\ r'.(ClusterResponse.WorkerCount) = r.(ClusterResponse.WorkerCount)
       /\ r'.(ClusterResponse.IngressCount) = r.(ClusterResponse.IngressCount)
       /\ r'.(ClusterResponse.Provisioner) = r.(ClusterResponse.Provisioner).
Proof.
  assert (H : Delete fooStored "foo"
              = (fooDeleted,
                 {| Response.Code := http.StatusAccepted;
                    Response.Body := Text ("ok" +:+ newline) |}))
    by (vm_compute; reflexivity).
  split; [exact H |].
  apply (Delete_then_Get fooStored fooDeleted "foo" _ H). reflexivity.
Defined.

Lemma Delete_twice_witness :
  Delete fooStored "foo"
  = (fooDeleted,
     {| Response.Code := http.StatusAccepted; Response.Body := Text ("ok" +:+ newline) |})
  /\ Delete fooDeleted "foo"
     = (fooDeleted,
        {| Response.Code := http.StatusAccepted; Response.Body := Text ("ok" +:+ newline) |})
  /\ store.Get fooDeleted "foo" = store.Get fooDeleted "foo"
  /\ exists c, store.Get fooDeleted "foo" = Ok (Some c).
Proof.
  assert (H1 : Delete fooStored "foo"
               = (fooDeleted,
                  {| Response.Code := http.StatusAccepted;
                     Response.Body := Text ("ok" +:+ newline) |}))
    by (vm_compute; reflexivity).
  assert (H2 : Delete fooDeleted "foo"
               = (fooDeleted,
                  {| Response.Code := http.StatusAccepted;
                     Response.Body := Text ("ok" +:+ newline) |}))
    by (vm_compute; reflexivity).
  split; [exact H1 |]. split; [exact H2 |].
  apply (Delete_twice fooStored fooDeleted fooDeleted "foo" _ _ H1 eq_refl H2 eq_refl).
Defined.

Lemma Create_stores_the_request_witness :
  Create emptyStore (Ok foo)
  = (fooStored,
     {| Response.Code := http.StatusAccepted; Response.Body := Text ("ok" +:+ newline) |})
  /\ exists (sc : store.Cluster unit) (o : AWSProvisionerOptions unit),
       store.Get fooStored "foo" = Ok (Some sc)
       /\ Provisioner.AWSOptions testProvisioner = Some o
       /\ sc.(store.Cluster.DesiredState) = "installed"
       /\ sc.(store.Cluster.Plan).(install.Plan.Cluster).(install.Cluster.Name) = "foo"
       /\ sc.(store.Cluster.Plan).(install.Plan.Provisioner)
          = {| install.Provisioner.Provider := "aws";
               install.Provisioner.AWSOptions :=
                 Some o.(AWSProvisionerOptions.AWSProvisionerOptions) |}
       /\ sc.(store.Cluster.ProvisionerCredentials)
          = {| store.ProvisionerCredentials.AWS :=
                 {| store.AWSCredentials.AccessKeyId :=
                      o.(AWSProvisionerOptions.AccessKeyID);
                    store.AWSCredentials.SecretAccessKey :=
                      o.(AWSProvisionerOptions.SecretAccessKey) |} |}.
Proof.
  assert (H : Create emptyStore (Ok foo)
              = (fooStored,
                 {| Response.Code := http.StatusAccepted;
                    Response.Body := Text ("ok" +:+ newline) |}))
    by (vm_compute; reflexivity).
  split; [exact H |].
  apply (Create_stores_the_request emptyStore fooStored foo _ H). reflexivity.
Defined.

Lemma Create_then_Get_gives_the_request_back_witness :
  Create emptyStore (Ok foo)
  = (fooStored,
     {| Response.Code := http.StatusAccepted; Response.Body := Text ("ok" +:+ newline) |})
  /\ exists r : ClusterResponse unit,
       Get fooStored "foo"
       = (fooStored,
          {| Response.Code := http.StatusOK; Response.Body := OneCluster r |})
       /\ r.(ClusterResponse.Name) = "foo"
       /\ r.(ClusterResponse.DesiredState) = "installed"
       /\ r.(ClusterResponse.CurrentState) = "planned"
       /\ r.(ClusterResponse.Provisioner) = withKeys testProvisioner "" "".
Proof.
  assert (H : Create emptyStore (Ok foo)
              = (fooStored,
                 {| Response.Code := http.StatusAccepted;
                    Response.Body := Text ("ok" +:+ newline) |}))
    by (vm_compute; reflexivity).
  split; [exact H |].
  apply (Create_then_Get_gives_the_request_back emptyStore fooStored foo _ H).
  reflexivity.
Defined.

Lemma file_handlers_panic_on_other_errors_witness :
  store.Get testStore "foo" = Ok (Some zeroCluster)
  /\ GetKubeconfig (Files := deniedFiles) testAssetsDir testStore tt "foo" = Panic
  /\ GetLogs (Files := deniedFiles) testAssetsDir testStore tt "foo" = Panic
  /\ GetAssets (Files := deniedFiles) testAssetsDir testStore tt "foo" = (tt, Panic).
Proof.
  assert (H : store.Get testStore "foo" = Ok (Some zeroCluster))
    by (vm_compute; reflexivity).
  split; [exact H |].
  destruct (file_handlers_panic_on_other_errors (Files := deniedFiles)
              testAssetsDir testStore tt "foo" zeroCluster H)
    as (Hk & Hl & Ha & _).
  split; [apply Hk; reflexivity |]. split; [apply Hl; reflexivity |].
  apply Ha. reflexivity.
Defined.

Lemma GetAssets_removes_its_temporary_file_witness :
  store.Get testStore "foo" = Ok (Some zeroCluster)
  /\ os.TempFile (FileSystem := testFiles) [] "/tmp" "foo" = (["/tmp/foo0"], Ok "/tmp/foo0")
  /\ GetAssets (Files := testFiles) testAssetsDir testStore [] "foo"
     = ([], ServeFile (Some "attachment; filename=foo-assets.tar.gz") "/tmp/foo0").
Proof.
  assert (H : store.Get testStore "foo" = Ok (Some zeroCluster))
    by (vm_compute; reflexivity).
  split; [exact H |]. split; [reflexivity |].
  destruct (GetAssets_removes_its_temporary_file (Files := testFiles)
              testAssetsDir testStore [] ["/tmp/foo0"] "foo" "/tmp/foo0" zeroCluster H
              eq_refl eq_refl) as [Hfs Hserved].
  rewrite (surjective_pairing (GetAssets testAssetsDir testStore [] "foo")).
  rewrite Hfs, Hserved. vm_compute. reflexivity.
Defined.

Lemma Create_ignores_ClusterIP_witness :
  Create emptyStore (Ok (withClusterIP foo "10.0.0.1")) = Create emptyStore (Ok foo)
  /\ exists r : ClusterResponse unit,
       Get (fst (Create emptyStore (Ok (withClusterIP foo "10.0.0.1")))) "foo"
       = (fooStored,
          {| Response.Code := http.StatusOK; Response.Body := OneCluster r |})
       /\ r.(ClusterResponse.ClusterIP) = "".
Proof.
  destruct (Create_ignores_ClusterIP emptyStore foo "10.0.0.1") as [Hsame Hget].
  split; [exact Hsame |].
  destruct (Hget fooStored
              {| Response.Code := http.StatusAccepted;
                 Response.Body := Text ("ok" +:+ newline) |})
    as (planner & p & r & Hwrite & Hread & Hr & Hip);
    [vm_compute; reflexivity | reflexivity |].
  exists r. split; [exact Hr |].
  rewrite Hip. injection Hwrite as <-. injection Hread as <-. reflexivity.
Defined.

Lemma validator_counts_errors_only_witness :
  let silent : validatable unit := fun _ => (false, []) in
  validator.valid (validator.validate newValidator tt) = (true, []).
Proof.
  cbv zeta.
  rewrite (proj2 (proj2 (proj2
             (validator_counts_errors_only
                (validatable0 := fun _ : unit => (false, [])) newValidator tt)))
             eq_refl eq_refl).
  reflexivity.
Defined.

End handler.
